(** * Prediction, persistence and drift pipeline of the AI monitoring system

    A shallow embedding of the Python sources under [src/]:
    - [src/core/exceptions.py]            : the exception taxonomy;
    - [src/storage/database.py]           : [DatabaseManager];
    - [src/repositories/prediction_repository.py] : [PredictionRepository];
    - [src/services/model_service.py]     : [ModelService];
    - [src/services/monitoring_service.py]: [MonitoringService];
    - [src/api/routes/predict.py], [src/api/routes/health.py] : the two
      route handlers.

    Python code that raises is embedded in a state-and-exception monad over
    a [World] holding the SQLite file, the artifacts on disk, the clock and
    the log.  External collaborators (the [json] codec, the fitted
    scikit-learn model, Evidently) are parameters. *)

From Stdlib Require Import QArith.
From stdpp Require Import base option list sorting strings gmap.

Local Open Scope Z_scope.

(** ** Python values *)

(** A Python [float].  Finite values are (dyadic) rationals; the code only
    compares floats, it never computes with them. *)
Inductive pyfloat : Type :=
| Finite (q : Q)
| Infinity (negative : bool)
| NaN.

(** [x >= y] on floats: every comparison with NaN is false. *)
Definition float_ge (x y : pyfloat) : bool :=
  match x, y with
  | NaN, _ | _, NaN => false
  | Finite a, Finite b => Qle_bool b a
  | Infinity n, Finite _ => negb n
  | Finite _, Infinity n => n
  | Infinity n, Infinity m => negb n || m
  end.

Definition float_le (x y : pyfloat) : bool := float_ge y x.

(** A feature mapping, [Dict[str, Any]] holding numeric values. *)
Abbreviation Features := (gmap string pyfloat).

(** ** Formatted text

    An f-string is kept as the sequence of its literal parts and of the
    values substituted into it; how Python prints a value is not
    re-implemented. *)
Inductive frag : Type :=
| Lit (s : string)                         (* literal text, or [{s}] for a str *)
| FInt (n : Z)                             (* [{n}] for an int *)
| FFloat (x : pyfloat)                     (* [{x}] for a float *)
| FFloat4 (x : pyfloat)                    (* [{x:.4f}] *)
| FBool (b : bool)                         (* [{b}] *)
| FStrs (l : list string)                  (* [{l}] for a list of str *)
| FDict (d : list (string * list string)). (* [{d}] for a details dict *)

Abbreviation text := (list frag).

(** ** [src/core/exceptions.py] *)

Inductive exn_class : Type :=
| ModelLoadError
| ConfigurationError
| DatabaseError
| DriftDetectionError
| ValidationError
| PredictionError
(* exceptions of Python and of the libraries, as the code catches them *)
| FileNotFoundError
| ValueError
| SqliteError
| PydanticValidationError
| OtherException.

Global Instance exn_class_eq_dec : EqDecision exn_class.
Proof. solve_decision. Defined.

(** [ModelMonitoringException.__init__]: [self.message = message],
    [self.details = details or {}]. *)
Record exn : Type := Exn {
  exn_cls : exn_class;
  exn_message : text;
  exn_details : list (string * list string)
}.

(** Subclasses of [ModelMonitoringException]. *)
Definition is_monitoring_exception (c : exn_class) : bool :=
  match c with
  | ModelLoadError | ConfigurationError | DatabaseError
  | DriftDetectionError | ValidationError | PredictionError => true
  | _ => false
  end.

(** [str(e)]; [ModelMonitoringException.__str__] appends the details when
    the dict is not empty. *)
Definition str_exn (e : exn) : text :=
  if is_monitoring_exception (exn_cls e) then
    match exn_details e with
    | [] => exn_message e
    | d => exn_message e ++ [Lit " | Details: "; FDict d]
    end
  else exn_message e.

(** ** The world the code runs in *)

(** One row of [live_predictions]
    [(id, timestamp, features, prediction, probability, latency_ms)]. *)
Record Row : Type := mkRow {
  row_id : Z;
  row_timestamp : string;
  row_features : string;        (* TEXT: [json.dumps(features)] *)
  row_prediction : Z;
  row_probability : pyfloat;
  row_latency_ms : pyfloat
}.

(** The table [live_predictions] together with the [sqlite_sequence]
    entry SQLite keeps for its AUTOINCREMENT key. *)
Record Table : Type := mkTable {
  t_rows : list Row;
  t_seq : Z
}.

(** Where the engine fails, when it does: [sqlite3.connect] raises, or
    every statement run on the connection raises. *)
Inductive fault : Type :=
| ConnectFails (m : text)
| ExecuteFails (m : text).

(** The SQLite file: the committed table, and the view of the connection
    that is open, if one is, with its uncommitted writes. *)
Record Database : Type := mkDatabase {
  db_fault : option fault;
  db_committed : Table;
  db_conn : option Table
}.

Inductive level : Type := DEBUG | INFO | WARNING | ERROR.

(** A fitted classifier as unpickled by [joblib.load]:
    [int(model.predict(df)[0])] and [float(model.predict_proba(df)[0][1])]
    on a one-row frame given as its (column, value) cells.  Either may
    raise. *)
Record Model : Type := mkModel {
  model_predict : list (string * pyfloat) → exn + Z;
  model_predict_proba : list (string * pyfloat) → exn + pyfloat
}.

(** A [pandas.DataFrame]: the column labels and one record per row; a
    cell missing from a record is NaN. *)
Record DataFrame : Type := mkDataFrame {
  df_columns : list string;
  df_records : list Features
}.

(** What is at a path of the file system. *)
Inductive file (A : Type) : Type :=
| Absent                       (* [path.exists()] is false *)
| Unreadable (e : exn)         (* reading or parsing raises [e] *)
| Content (a : A).
Arguments Absent {A}.
Arguments Unreadable {A} e.
Arguments Content {A} a.

(** [json.load] of the feature list file. *)
Inductive feature_json : Type :=
| JsonList (l : list string)
| JsonOther.

(** The attributes of the [ModelService] singleton. *)
Record ModelService : Type := mkModelService {
  model_path : string;
  features_path : string;
  model : option Model;
  feature_list : option feature_json;
  _loaded : bool
}.

Record World : Type := mkWorld {
  w_db : Database;
  w_service : ModelService;
  w_model_file : file Model;               (* [model.pkl] *)
  w_features_file : file feature_json;     (* [feature_list.json] *)
  w_reference_file : file DataFrame;       (* [reference_data.csv] *)
  w_report_fault : option exn;             (* Evidently or the report files fail *)
  w_reports : list (string * DataFrame * DataFrame);
                                           (* reports written: directory, reference, live *)
  w_time : nat → pyfloat;                  (* successive [time.time()] *)
  w_utcnow : nat → string;                 (* successive [datetime.utcnow().isoformat()] *)
  w_ticks : nat;                           (* clock reads so far *)
  w_log : list (level * text)
}.

Definition set_db (d : Database) (w : World) : World :=
  mkWorld d (w_service w) (w_model_file w) (w_features_file w)
    (w_reference_file w) (w_report_fault w) (w_reports w) (w_time w)
    (w_utcnow w) (w_ticks w) (w_log w).

Definition set_service (s : ModelService) (w : World) : World :=
  mkWorld (w_db w) s (w_model_file w) (w_features_file w)
    (w_reference_file w) (w_report_fault w) (w_reports w) (w_time w)
    (w_utcnow w) (w_ticks w) (w_log w).

Definition set_reports (r : list (string * DataFrame * DataFrame)) (w : World) : World :=
  mkWorld (w_db w) (w_service w) (w_model_file w) (w_features_file w)
    (w_reference_file w) (w_report_fault w) r (w_time w)
    (w_utcnow w) (w_ticks w) (w_log w).

Definition set_ticks (n : nat) (w : World) : World :=
  mkWorld (w_db w) (w_service w) (w_model_file w) (w_features_file w)
    (w_reference_file w) (w_report_fault w) (w_reports w) (w_time w)
    (w_utcnow w) n (w_log w).

Definition set_log (l : list (level * text)) (w : World) : World :=
  mkWorld (w_db w) (w_service w) (w_model_file w) (w_features_file w)
    (w_reference_file w) (w_report_fault w) (w_reports w) (w_time w)
    (w_utcnow w) (w_ticks w) l.

(** ** The monad of Python code: state and exceptions *)

Definition M (A : Type) : Type := World → (exn + A) * World.

Definition ret {A} (a : A) : M A := λ w, (inr a, w).
Definition raise {A} (e : exn) : M A := λ w, (inl e, w).
Definition bind {A B} (m : M A) (k : A → M B) : M B :=
  λ w, match m w with
       | (inr a, w') => k a w'
       | (inl e, w') => (inl e, w')
       end.

(** [try: m except Exception as e: h e] *)
Definition try_except {A} (m : M A) (h : exn → M A) : M A :=
  λ w, match m w with
       | (inr a, w') => (inr a, w')
       | (inl e, w') => h e w'
       end.

(** [try: m finally: f], for an [f] that does not raise. *)
Definition try_finally {A} (m : M A) (f : World → World) : M A :=
  λ w, let '(r, w') := m w in (r, f w').

Notation "'let*' x := m 'in' k" := (bind m (λ x, k))
  (at level 10, x name, m at level 100, k at level 200, only parsing).
Notation "m ;; k" := (bind m (λ _, k))
  (at level 100, k at level 200, right associativity, only parsing).

Definition get_world : M World := λ w, (inr w, w).
Definition modify (f : World → World) : M unit := λ w, (inr (), f w).

(** [logger.<level>(msg)] *)
Definition log (l : level) (msg : text) : M unit :=
  modify (λ w, set_log (w_log w ++ [(l, msg)]) w).

(** [time.time()] and [datetime.utcnow().isoformat()] *)
Definition time_time : M pyfloat :=
  λ w, (inr (w_time w (w_ticks w)), set_ticks (S (w_ticks w)) w).
Definition utcnow_isoformat : M string :=
  λ w, (inr (w_utcnow w (w_ticks w)), set_ticks (S (w_ticks w)) w).

(** Truthiness of [Optional] arguments: [None], [0] and the empty string
    are falsy. *)
Definition truthy_int (o : option Z) : bool :=
  match o with Some n => negb (n =? 0) | None => false end.
Definition truthy_str (o : option string) : bool :=
  match o with Some s => negb (String.eqb s "") | None => false end.

(** The exceptions of the application, raised with a message only. *)
Definition mk_error (c : exn_class) (msg : text) : exn := Exn c msg [].

(** The parts of the system that are not code of the repository: the
    [json] codec applied to feature mappings, and the float arithmetic of
    the latency, [round((t1 - t0) * 1000, 2)]. *)
Class Externals : Type := {
  json_dumps : Features → string;
  json_loads : string → exn + Features;
  latency_between : pyfloat → pyfloat → pyfloat
}.

(** ** SQLite, as the code uses it *)

Definition int64_max : Z := 9223372036854775807.
Definition int64_min : Z := -9223372036854775808.

Definition is_nan (x : pyfloat) : bool :=
  match x with NaN => true | _ => false end.

(** [sqlite3.connect(...)]: a new connection, seeing the committed table. *)
Definition sqlite_connect : M unit :=
  λ w, match db_fault (w_db w) with
       | Some (ConnectFails m) => (inl (mk_error SqliteError m), w)
       | _ => (inr (), set_db (mkDatabase (db_fault (w_db w))
                                 (db_committed (w_db w))
                                 (Some (db_committed (w_db w)))) w)
       end.

(** The table a statement runs on; a statement on the connection raises
    when the engine is faulty or the connection is closed. *)
Definition conn_table : M Table :=
  λ w, match db_fault (w_db w), db_conn (w_db w) with
       | Some (ExecuteFails m), _ => (inl (mk_error SqliteError m), w)
       | _, Some t => (inr t, w)
       | _, None =>
           (inl (mk_error SqliteError
                   [Lit "Cannot operate on a closed database."]), w)
       end.

Definition set_conn (t : option Table) : M unit :=
  modify (λ w, set_db (mkDatabase (db_fault (w_db w)) (db_committed (w_db w)) t) w).

(** [conn.commit()], [conn.rollback()], [conn.close()] *)
Definition conn_commit : M unit :=
  modify (λ w, match db_conn (w_db w) with
               | Some t => set_db (mkDatabase (db_fault (w_db w)) t (Some t)) w
               | None => w
               end).
Definition conn_rollback (w : World) : World :=
  set_db (mkDatabase (db_fault (w_db w)) (db_committed (w_db w))
            (Some (db_committed (w_db w)))) w.
Definition conn_close (w : World) : World :=
  set_db (mkDatabase (db_fault (w_db w)) (db_committed (w_db w)) None) w.

(** The largest rowid in the table, 0 when it is empty. *)
Definition max_rowid (rows : list Row) : Z :=
  foldr (λ r m, Z.max (row_id r) m) 0 rows.

(** [INSERT INTO live_predictions (timestamp, features, prediction,
    probability, latency_ms) VALUES (?, ?, ?, ?, ?)] and
    [cursor.lastrowid].  The key is AUTOINCREMENT: one more than the
    largest rowid the table ever held.  An int outside 64 bits cannot be
    bound, and a NaN is bound as NULL, which the NOT NULL columns
    refuse. *)
Definition execute_insert (timestamp features : string) (prediction : Z)
    (probability latency_ms : pyfloat) : M Z :=
  let* t := conn_table in
  if negb ((int64_min <=? prediction) && (prediction <=? int64_max)) then
    raise (mk_error SqliteError
             [Lit "Python int too large to convert to SQLite INTEGER"])
  else if is_nan probability || is_nan latency_ms then
    raise (mk_error SqliteError [Lit "NOT NULL constraint failed"])
  else
    let id := Z.max (t_seq t) (max_rowid (t_rows t)) + 1 in
    if int64_max <? id then
      raise (mk_error SqliteError [Lit "database or disk is full"])
    else
      set_conn (Some (mkTable
        (t_rows t ++ [mkRow id timestamp features prediction probability latency_ms])
        id)) ;;
      ret id.

(** [ORDER BY timestamp DESC]; TEXT compares bytewise.  The order among
    rows of equal timestamp is the engine's choice. *)
Definition ts_desc (r1 r2 : Row) : Prop :=
  String.le (row_timestamp r2) (row_timestamp r1).

Global Instance ts_desc_dec : RelDecision ts_desc.
Proof. intros r1 r2. unfold ts_desc. apply _. Defined.

Definition order_by_timestamp_desc (rows : list Row) : list Row :=
  merge_sort ts_desc rows.

(** [LIMIT ? OFFSET ?]: a negative limit is no limit, a negative offset
    is 0. *)
Definition limit_offset (limit offset : Z) (rows : list Row) : list Row :=
  let rest := drop (Z.to_nat offset) rows in
  if limit <? 0 then rest else take (Z.to_nat limit) rest.

(** [DELETE FROM live_predictions WHERE timestamp < cutoff] and
    [cursor.rowcount].  A cutoff that is NULL compares with no row.  The
    [sqlite_sequence] entry stays as it is. *)
Definition older_than (cutoff : option string) (r : Row) : Prop :=
  match cutoff with
  | Some c => String.le (row_timestamp r) c ∧ row_timestamp r ≠ c
  | None => False
  end.

Global Instance older_than_dec cutoff r : Decision (older_than cutoff r).
Proof. unfold older_than. destruct cutoff; apply _. Defined.

Definition execute_delete (cutoff : option string) : M Z :=
  let* t := conn_table in
  set_conn (Some (mkTable (filter (λ r, ¬ older_than cutoff r) (t_rows t)) (t_seq t))) ;;
  ret (Z.of_nat (length (filter (older_than cutoff) (t_rows t)))).

(** ** [src/storage/database.py] *)

Record DatabaseManager : Type := mkDatabaseManager {
  db_path : string
}.

Module DatabaseManager.

(** [get_connection], a context manager around [body]: commit when the
    body completes, roll back and raise [DatabaseError] when it raises,
    close the connection on every path. *)
Definition get_connection {A} (self : DatabaseManager) (body : M A) : M A :=
  try_except sqlite_connect
    (* [conn] is still None: nothing to roll back or to close *)
    (λ e, log ERROR (Lit "Database error: " :: str_exn e) ;;
          raise (mk_error DatabaseError
                   (Lit "Database operation failed: " :: str_exn e))) ;;
  try_finally
    (try_except
       (log DEBUG [Lit "Database connection opened: "; Lit (db_path self)] ;;
        let* a := body in
        conn_commit ;;
        ret a)
       (λ e,
          modify conn_rollback ;;
          if decide (exn_cls e = SqliteError) then
            log ERROR (Lit "Database error: " :: str_exn e) ;;
            raise (mk_error DatabaseError
                     (Lit "Database operation failed: " :: str_exn e))
          else
            log ERROR (Lit "Unexpected database error: " :: str_exn e) ;;
            raise (mk_error DatabaseError
                     (Lit "Unexpected database error: " :: str_exn e))))
    (λ w, set_log (w_log (conn_close w) ++ [(DEBUG, [Lit "Database connection closed"])])
            (conn_close w)).

(** [health_check]: run [SELECT 1]. *)
Definition health_check (self : DatabaseManager) : M bool :=
  try_except
    (get_connection self (conn_table ;; ret true))
    (λ e, log ERROR (Lit "Database health check failed: " :: str_exn e) ;;
          ret false).

End DatabaseManager.

(** ** [src/repositories/prediction_repository.py] *)

Record PredictionRepository : Type := mkPredictionRepository {
  db_manager : DatabaseManager
}.

(** The dicts [get_predictions] returns. *)
Record Prediction : Type := mkPrediction {
  p_id : Z;
  p_timestamp : string;
  p_features : Features;
  p_prediction : Z;
  p_probability : pyfloat;
  p_latency_ms : pyfloat
}.

(** [pd.DataFrame(records)] for a list of dicts: one row per dict, the
    columns are the keys that occur.  The code below never depends on the
    order of these columns. *)
Definition DataFrame_of_records (records : list Features) : DataFrame :=
  mkDataFrame (elements (⋃ (dom <$> records) : gset string)) records.

(** [pd.DataFrame()] *)
Definition DataFrame_empty : DataFrame := mkDataFrame [] [].

(** [df.empty]: some axis has length 0; [len(df)]. *)
Definition df_is_empty (df : DataFrame) : bool :=
  bool_decide (df_records df = []) || bool_decide (df_columns df = []).
Definition df_len (df : DataFrame) : Z := Z.of_nat (length (df_records df)).

(** [for x in xs: ...f x...], collecting the results. *)
Fixpoint for_each {A B} (f : A → M B) (xs : list A) : M (list B) :=
  match xs with
  | [] => ret []
  | x :: xs' => let* y := f x in let* ys := for_each f xs' in ret (y :: ys)
  end.

Definition lift_result {A} (r : exn + A) : M A :=
  match r with inl e => raise e | inr a => ret a end.

Module PredictionRepository.
Section with_externals.
Context `{Externals}.

Definition save_prediction (self : PredictionRepository)
    (features : Features) (prediction : Z) (probability latency_ms : pyfloat)
    (timestamp : option string) : M Z :=
  let* timestamp :=
    match timestamp with
    | None => utcnow_isoformat
    | Some t => ret t
    end in
  try_except
    (DatabaseManager.get_connection (db_manager self)
       (let* row_id := execute_insert timestamp (json_dumps features)
                         prediction probability latency_ms in
        conn_commit ;;
        log DEBUG [Lit "Prediction saved with ID: "; FInt row_id] ;;
        ret row_id))
    (λ e, log ERROR (Lit "Failed to save prediction: " :: str_exn e) ;;
          raise (mk_error DatabaseError
                   (Lit "Failed to save prediction: " :: str_exn e))).

(** The WHERE clause [get_predictions] builds: a bound is added only
    when the argument is truthy. *)
Definition in_time_range (start_timestamp end_timestamp : option string)
    (r : Row) : bool :=
  (if truthy_str start_timestamp
   then bool_decide (String.le (default "" start_timestamp) (row_timestamp r))
   else true)
  &&
  (if truthy_str end_timestamp
   then bool_decide (String.le (row_timestamp r) (default "" end_timestamp))
   else true).

(** The rows the query of [get_predictions] selects from a table. *)
Definition select_predictions (limit : option Z) (offset : Z)
    (start_timestamp end_timestamp : option string) (t : Table) : list Row :=
  let sorted := order_by_timestamp_desc
                  (filter (λ r, in_time_range start_timestamp end_timestamp r = true)
                     (t_rows t)) in
  if truthy_int limit then limit_offset (default 0 limit) offset sorted
  else sorted.

Definition prediction_of_row (r : Row) : M Prediction :=
  let* features := lift_result (json_loads (row_features r)) in
  ret (mkPrediction (row_id r) (row_timestamp r) features
         (row_prediction r) (row_probability r) (row_latency_ms r)).

Definition get_predictions (self : PredictionRepository)
    (limit : option Z) (offset : Z)
    (start_timestamp end_timestamp : option string) : M (list Prediction) :=
  try_except
    (DatabaseManager.get_connection (db_manager self)
       (let* t := conn_table in
        let rows := select_predictions limit offset start_timestamp end_timestamp t in
        let* predictions := for_each prediction_of_row rows in
        log DEBUG [Lit "Retrieved "; FInt (Z.of_nat (length predictions));
                   Lit " predictions"] ;;
        ret predictions))
    (λ e, log ERROR (Lit "Failed to get predictions: " :: str_exn e) ;;
          raise (mk_error DatabaseError
                   (Lit "Failed to get predictions: " :: str_exn e))).

(** The rows the query of [get_feature_data] selects. *)
Definition select_features (limit : option Z) (t : Table) : list Row :=
  let sorted := order_by_timestamp_desc (t_rows t) in
  if truthy_int limit then limit_offset (default 0 limit) 0 sorted
  else sorted.

(** [pd.read_sql(query, conn, params)]: pandas re-raises what the
    engine raises as its own [DatabaseError], which is no
    [sqlite3.Error]. *)
Definition read_sql_features (limit : option Z) : M (list Row) :=
  let query :=
    if truthy_int limit
    then "SELECT features FROM live_predictions ORDER BY timestamp DESC LIMIT ?"
    else "SELECT features FROM live_predictions ORDER BY timestamp DESC" in
  try_except
    (let* t := conn_table in ret (select_features limit t))
    (λ e, raise (mk_error OtherException
                   ([Lit "Execution failed on sql '"; Lit query; Lit "': "]
                    ++ str_exn e))).

Definition get_feature_data (self : PredictionRepository)
    (limit : option Z) : M DataFrame :=
  try_except
    (DatabaseManager.get_connection (db_manager self)
       (let* rows := read_sql_features limit in
        if bool_decide (rows = []) then
          log WARNING [Lit "No feature data found in database"] ;;
          ret DataFrame_empty
        else
          let* live_features :=
            for_each (λ r, lift_result (json_loads (row_features r))) rows in
          let live_features_df := DataFrame_of_records live_features in
          log DEBUG [Lit "Retrieved "; FInt (df_len live_features_df);
                     Lit " feature records"] ;;
          ret live_features_df))
    (λ e, log ERROR (Lit "Failed to get feature data: " :: str_exn e) ;;
          raise (mk_error DatabaseError
                   (Lit "Failed to get feature data: " :: str_exn e))).

Definition get_prediction_count (self : PredictionRepository) : M Z :=
  try_except
    (DatabaseManager.get_connection (db_manager self)
       (let* t := conn_table in
        let count := Z.of_nat (length (t_rows t)) in
        log DEBUG [Lit "Total predictions: "; FInt count] ;;
        ret count))
    (λ e, log ERROR (Lit "Failed to get prediction count: " :: str_exn e) ;;
          raise (mk_error DatabaseError
                   (Lit "Failed to get prediction count: " :: str_exn e))).

(** [delete_old_predictions]; [datetime_now_minus] stands for what the
    engine computes for [datetime('now', '-' || days || ' days')]: a text
    [YYYY-MM-DD HH:MM:SS], or NULL when the modifier is not valid. *)
Definition delete_old_predictions (datetime_now_minus : Z → option string)
    (self : PredictionRepository) (days : Z) : M Z :=
  try_except
    (utcnow_isoformat ;;
     DatabaseManager.get_connection (db_manager self)
       (let* deleted_count := execute_delete (datetime_now_minus days) in
        conn_commit ;;
        log INFO [Lit "Deleted "; FInt deleted_count;
                  Lit " old predictions (older than "; FInt days; Lit " days)"] ;;
        ret deleted_count))
    (λ e, log ERROR (Lit "Failed to delete old predictions: " :: str_exn e) ;;
          raise (mk_error DatabaseError
                   (Lit "Failed to delete old predictions: " :: str_exn e))).

End with_externals.
End PredictionRepository.

(** ** [src/services/model_service.py] *)

(** [sorted(s)] for a set of str. *)
Definition sorted (s : gset string) : list string :=
  merge_sort String.le (elements s).

(** [df[columns]] on the one-row frame [pd.DataFrame([features])]: the
    cells in the order asked for; None stands for the KeyError of a
    column that is not there. *)
Definition select_columns (columns : list string) (features : Features)
    : option (list (string * pyfloat)) :=
  mapM (λ c, pair c <$> features !! c) columns.

(** The results of [ModelService.predict]. *)
Record Scored : Type := mkScored {
  s_prediction : Z;
  s_probability : pyfloat
}.

Module ModelService.

(** [__init__] *)
Definition init (model_path features_path : string) : ModelService :=
  mkModelService model_path features_path None None false.

Definition self : M ModelService := λ w, (inr (w_service w), w).
Definition set_model (m : option Model) : M unit :=
  modify (λ w, let s := w_service w in
               set_service (mkModelService (model_path s) (features_path s)
                              m (feature_list s) (_loaded s)) w).
Definition set_feature_list (l : option feature_json) : M unit :=
  modify (λ w, let s := w_service w in
               set_service (mkModelService (model_path s) (features_path s)
                              (model s) l (_loaded s)) w).
Definition set_loaded (b : bool) : M unit :=
  modify (λ w, let s := w_service w in
               set_service (mkModelService (model_path s) (features_path s)
                              (model s) (feature_list s) b) w).

(** [joblib.load(self.model_path)] and [json.load] of the feature
    list, once the paths are known to exist. *)
Definition read_file {A} (f : World → file A) : M A :=
  λ w, match f w with
       | Content a => (inr a, w)
       | Unreadable e => (inl e, w)
       | Absent => (inl (mk_error FileNotFoundError
                           [Lit "No such file or directory"]), w)
       end.
Definition exists_file {A} (f : World → file A) : M bool :=
  λ w, (inr (match f w with Absent => false | _ => true end), w).

Definition load_model : M unit :=
  let* s := self in
  if _loaded s then
    log DEBUG [Lit "Model already loaded"]
  else
    try_except
      (let* model_exists := exists_file w_model_file in
       (if negb model_exists
        then raise (mk_error FileNotFoundError
                      [Lit "Model file not found at "; Lit (model_path s)])
        else ret ()) ;;
       let* features_exist := exists_file w_features_file in
       (if negb features_exist
        then raise (mk_error FileNotFoundError
                      [Lit "Feature list not found at "; Lit (features_path s)])
        else ret ()) ;;
       log INFO [Lit "Loading model from "; Lit (model_path s)] ;;
       let* m := read_file w_model_file in
       set_model (Some m) ;;
       log INFO [Lit "Loading feature list from "; Lit (features_path s)] ;;
       let* fl := read_file w_features_file in
       set_feature_list (Some fl) ;;
       match fl with
       | JsonOther => raise (mk_error ValueError [Lit "Feature list must be a list"])
       | JsonList l =>
           if bool_decide (length l = 0%nat) then
             raise (mk_error ValueError [Lit "Feature list cannot be empty"])
           else
             set_loaded true ;;
             log INFO [Lit "Model loaded successfully: ";
                       FInt (Z.of_nat (length l)); Lit " features"]
       end)
      (λ e,
         if decide (exn_cls e = FileNotFoundError) then
           log ERROR (Lit "File not found: " :: str_exn e) ;;
           raise (mk_error ModelLoadError
                    (Lit "Model file not found: " :: str_exn e))
         else
           log ERROR (Lit "Failed to load model: " :: str_exn e) ;;
           raise (mk_error ModelLoadError
                    (Lit "Model loading failed: " :: str_exn e))).

(** [is_loaded] *)
Definition is_loaded (s : ModelService) : bool :=
  _loaded s && bool_decide (model s ≠ None)
  && bool_decide (feature_list s ≠ None).

Definition not_loaded_error : exn :=
  mk_error ModelLoadError [Lit "Model is not loaded. Call load_model() first."].

Definition predict (features : Features) : M Scored :=
  let* s := self in
  if negb (is_loaded s) then raise not_loaded_error
  else
    try_except
      (match model s, feature_list s with
       | Some m, Some (JsonList feature_list) =>
           let columns : gset string := dom features in
           let missing_features := list_to_set feature_list ∖ columns in
           (if bool_decide (missing_features ≠ ∅) then
              raise (Exn PredictionError
                       [Lit "Missing features: "; FStrs (sorted missing_features)]
                       [("missing_features", sorted missing_features)])
            else ret ()) ;;
           let extra_features := columns ∖ list_to_set feature_list in
           (if bool_decide (extra_features ≠ ∅) then
              log WARNING [Lit "Extra features provided (will be ignored): ";
                           FStrs (sorted extra_features)]
            else ret ()) ;;
           let* df :=
             match select_columns feature_list features with
             | Some df => ret df
             | None => raise (mk_error OtherException [Lit "not in index"])
             end in
           let* prediction := lift_result (model_predict m df) in
           let* probability := lift_result (model_predict_proba m df) in
           log DEBUG [Lit "Prediction made: "; FInt prediction;
                      Lit ", probability: "; FFloat4 probability] ;;
           ret (mkScored prediction probability)
       | _, _ =>
           (* not a list of names: the set operations raise *)
           raise (mk_error OtherException [Lit "feature list is not a list"])
       end)
      (λ e,
         if decide (exn_cls e = PredictionError) then raise e
         else
           log ERROR (Lit "Prediction failed: " :: str_exn e) ;;
           raise (mk_error PredictionError
                    (Lit "Prediction failed: " :: str_exn e))).

Definition get_feature_list : M (list string) :=
  let* s := self in
  if negb (is_loaded s) then raise not_loaded_error
  else match feature_list s with
       | Some (JsonList l) => ret l
       | _ => raise (mk_error OtherException [Lit "feature list is not a list"])
       end.

Definition reload_model : M unit :=
  log INFO [Lit "Reloading model..."] ;;
  set_loaded false ;;
  set_model None ;;
  set_feature_list None ;;
  load_model.

End ModelService.

(** ** [src/services/monitoring_service.py] *)

(** The settings the services read ([src/config/settings.py]). *)
Record Settings : Type := mkSettings {
  min_records_for_drift : Z;      (* default 500, validated [ge=1] *)
  artifacts_dir : string;
  reference_data_path : string
}.

Record MonitoringService : Type := mkMonitoringService {
  prediction_repository : PredictionRepository;
  ms_reference_data_path : string;
  min_records : Z
}.

(** What [detect_drift] returns. *)
Record DriftResult : Type := mkDriftResult {
  dr_status : string;
  dr_record_count : Z;
  dr_html_path : string;
  dr_json_path : string
}.

(** What [get_live_data_stats] returns; [stats_error] is the key that is
    there after a failure only. *)
Record LiveDataStats : Type := mkLiveDataStats {
  total_predictions : Z;
  min_records_required : Z;
  sufficient_for_drift : bool;
  stats_error : option text
}.

(** [df.drop(columns=[c])] and [df[columns]]. *)
Definition df_drop (c : string) (df : DataFrame) : DataFrame :=
  mkDataFrame (filter (λ x, x ≠ c) (df_columns df)) (delete c <$> df_records df).
Definition df_reindex (columns : list string) (df : DataFrame) : DataFrame :=
  mkDataFrame columns
    ((λ r, filter (λ kv, kv.1 ∈ columns) r) <$> df_records df).

Module MonitoringService.
Section with_externals.
Context `{Externals}.

(** [__init__]: [reference_data_path or settings.reference_data_path]
    (a path is never falsy) and
    [min_records or settings.min_records_for_drift]. *)
Definition init (settings : Settings) (repository : PredictionRepository)
    (path : option string) (min : option Z) : MonitoringService :=
  mkMonitoringService repository
    (default (reference_data_path settings) path)
    (if truthy_int min then default 0 min
     else min_records_for_drift settings).

Definition load_reference_data (self : MonitoringService) : M DataFrame :=
  try_except
    (let* present := ModelService.exists_file w_reference_file in
     (if negb present then
        raise (mk_error FileNotFoundError
                 [Lit "Reference data not found at ";
                  Lit (ms_reference_data_path self)])
      else ret ()) ;;
     log INFO [Lit "Loading reference data from ";
               Lit (ms_reference_data_path self)] ;;
     let* reference_df := ModelService.read_file w_reference_file in
     let reference_df :=
       if bool_decide ("Class" ∈ df_columns reference_df)
       then df_drop "Class" reference_df else reference_df in
     log INFO [Lit "Reference data loaded: "; FInt (df_len reference_df);
               Lit " records, ";
               FInt (Z.of_nat (length (df_columns reference_df)));
               Lit " features"] ;;
     ret reference_df)
    (λ e,
       if decide (exn_cls e = FileNotFoundError) then
         log ERROR (Lit "Reference data file not found: " :: str_exn e) ;;
         raise (mk_error DriftDetectionError
                  (Lit "Reference data not found: " :: str_exn e))
       else
         log ERROR (Lit "Failed to load reference data: " :: str_exn e) ;;
         raise (mk_error DriftDetectionError
                  (Lit "Failed to load reference data: " :: str_exn e))).

Definition no_live_data_error : exn :=
  mk_error DriftDetectionError
    [Lit "No live data found in database. Please make some predictions via the API first."].

Definition not_enough_data_error (record_count min_records : Z) : exn :=
  mk_error DriftDetectionError
    [Lit "Not enough live data for drift detection. ";
     Lit "Found "; FInt record_count; Lit " records, but need at least ";
     FInt min_records; Lit " records. ";
     Lit "Please make more predictions via the API."].

(** The message of the feature mismatch: each list is there when it is
    not empty. *)
Definition feature_mismatch_error (reference_features live_features : gset string)
    : exn :=
  let missing_in_live := reference_features ∖ live_features in
  let extra_in_live := live_features ∖ reference_features in
  mk_error DriftDetectionError
    ([Lit "Feature mismatch between reference and live data."]
     ++ (if bool_decide (missing_in_live ≠ ∅)
         then [Lit " Missing in live: "; FStrs (sorted missing_in_live)] else [])
     ++ (if bool_decide (extra_in_live ≠ ∅)
         then [Lit " Extra in live: "; FStrs (sorted extra_in_live)] else [])).

(** [Report(metrics=[DataDriftPreset()])], [report.run], the directory
    and the two files: Evidently and the file system either fail or
    leave the report of the two frames in the directory. *)
Definition run_and_save_report (report_dir : string)
    (reference_df live_df : DataFrame) : M unit :=
  λ w, match w_report_fault w with
       | Some e => (inl e, w)
       | None => (inr (), set_reports
                            (w_reports w ++ [(report_dir, reference_df, live_df)]) w)
       end.

Definition detect_drift (self : MonitoringService) (settings : Settings)
    (limit : option Z) (report_dir : option string) : M DriftResult :=
  try_except
    (let* reference_df := load_reference_data self in
     log INFO [Lit "Retrieving live prediction data..."] ;;
     let* live_df :=
       PredictionRepository.get_feature_data (prediction_repository self) limit in
     (if df_is_empty live_df then raise no_live_data_error else ret ()) ;;
     let record_count := df_len live_df in
     (if record_count <? min_records self then
        log WARNING [Lit "Only "; FInt record_count; Lit " records available. ";
                     Lit "For reliable drift detection, recommend at least ";
                     FInt (min_records self); Lit "+ records."] ;;
        raise (not_enough_data_error record_count (min_records self))
      else ret ()) ;;
     log INFO [Lit "Found "; FInt record_count; Lit " live prediction records"] ;;
     let reference_features : gset string := list_to_set (df_columns reference_df) in
     let live_features : gset string := list_to_set (df_columns live_df) in
     (if bool_decide (reference_features ≠ live_features) then
        raise (feature_mismatch_error reference_features live_features)
      else ret ()) ;;
     let live_df := df_reindex (df_columns reference_df) live_df in
     log INFO [Lit "Generating drift detection report..."] ;;
     let report_dir := default (artifacts_dir settings) report_dir in
     let html_path := report_dir +:+ "/monitoring_report.html" in
     let json_path := report_dir +:+ "/monitoring_summary.json" in
     run_and_save_report report_dir reference_df live_df ;;
     log INFO [Lit "Drift report generated: HTML="; Lit html_path;
               Lit ", JSON="; Lit json_path] ;;
     ret (mkDriftResult "success" record_count html_path json_path))
    (λ e,
       if decide (exn_cls e = DriftDetectionError) then raise e
       else
         log ERROR (Lit "Drift detection failed: " :: str_exn e) ;;
         raise (mk_error DriftDetectionError
                  (Lit "Drift detection failed: " :: str_exn e))).

(** [get_live_data_stats] *)
Definition get_live_data_stats (self : MonitoringService) : M LiveDataStats :=
  try_except
    (let* count :=
       PredictionRepository.get_prediction_count (prediction_repository self) in
     ret (mkLiveDataStats count (min_records self)
            (min_records self <=? count) None))
    (λ e, log ERROR (Lit "Failed to get live data stats: " :: str_exn e) ;;
          ret (mkLiveDataStats 0 (min_records self) false (Some (str_exn e)))).

End with_externals.
End MonitoringService.

(** ** [src/models/transaction.py], [src/models/prediction.py] *)

Record Transaction : Type := mkTransaction {
  tx_Time : pyfloat;
  tx_Amount : pyfloat;
  tx_V1 : pyfloat;
  tx_V2 : pyfloat;
  tx_V3 : pyfloat;
  tx_V4 : pyfloat;
  tx_V5 : pyfloat;
  tx_V6 : pyfloat;
  tx_V7 : pyfloat;
  tx_V8 : pyfloat;
  tx_V9 : pyfloat;
  tx_V10 : pyfloat;
  tx_V11 : pyfloat;
  tx_V12 : pyfloat;
  tx_V13 : pyfloat;
  tx_V14 : pyfloat;
  tx_V15 : pyfloat;
  tx_V16 : pyfloat;
  tx_V17 : pyfloat;
  tx_V18 : pyfloat;
  tx_V19 : pyfloat;
  tx_V20 : pyfloat;
  tx_V21 : pyfloat;
  tx_V22 : pyfloat;
  tx_V23 : pyfloat;
  tx_V24 : pyfloat;
  tx_V25 : pyfloat;
  tx_V26 : pyfloat;
  tx_V27 : pyfloat;
  tx_V28 : pyfloat
}.

(** [tx.model_dump()] *)
Definition model_dump (tx : Transaction) : Features :=
  list_to_map [
    ("Time", tx_Time tx);
    ("Amount", tx_Amount tx);
    ("V1", tx_V1 tx);
    ("V2", tx_V2 tx);
    ("V3", tx_V3 tx);
    ("V4", tx_V4 tx);
    ("V5", tx_V5 tx);
    ("V6", tx_V6 tx);
    ("V7", tx_V7 tx);
    ("V8", tx_V8 tx);
    ("V9", tx_V9 tx);
    ("V10", tx_V10 tx);
    ("V11", tx_V11 tx);
    ("V12", tx_V12 tx);
    ("V13", tx_V13 tx);
    ("V14", tx_V14 tx);
    ("V15", tx_V15 tx);
    ("V16", tx_V16 tx);
    ("V17", tx_V17 tx);
    ("V18", tx_V18 tx);
    ("V19", tx_V19 tx);
    ("V20", tx_V20 tx);
    ("V21", tx_V21 tx);
    ("V22", tx_V22 tx);
    ("V23", tx_V23 tx);
    ("V24", tx_V24 tx);
    ("V25", tx_V25 tx);
    ("V26", tx_V26 tx);
    ("V27", tx_V27 tx);
    ("V28", tx_V28 tx)
  ].

Record PredictionResponse : Type := mkPredictionResponse {
  prediction : Z;
  probability : pyfloat;
  latency_ms : pyfloat;
  timestamp : string
}.

Record HealthResponse : Type := mkHealthResponse {
  status : string;
  message : text;
  model_loaded : bool;
  database_connected : bool
}.

(** The field constraints of [PredictionResponse]:
    [prediction] has [ge=0, le=1], [probability] has [ge=0.0, le=1.0],
    [latency_ms] has [ge=0.0]. *)
Definition valid_response (r : PredictionResponse) : bool :=
  (0 <=? prediction r) && (prediction r <=? 1)
  && float_ge (probability r) (Finite 0) && float_le (probability r) (Finite 1)
  && float_ge (latency_ms r) (Finite 0).

(** [PredictionResponse(...)]: pydantic raises its own validation error
    when a constraint fails. *)
Definition PredictionResponse_init (p : Z) (pr l : pyfloat) (t : string)
    : M PredictionResponse :=
  let r := mkPredictionResponse p pr l t in
  if valid_response r then ret r
  else raise (mk_error PydanticValidationError
                [Lit "validation error for PredictionResponse"]).

(** ** [src/api/routes/predict.py] and [src/api/routes/health.py] *)

(** [HTTPException(status_code, detail)], what a handler raises. *)
Record HTTPException : Type := mkHTTPException {
  status_code : Z;
  detail : text
}.

Module Routes.
Section with_externals.
Context `{Externals}.

(** The POST /predict handler; what it raises is the HTTPException. *)
Definition predict (tx : Transaction)
    (prediction_repository : PredictionRepository)
    : World → (HTTPException + PredictionResponse) * World :=
  λ w,
  let body : M PredictionResponse :=
    let* start_time := time_time in
    let features := model_dump tx in
    let* result := ModelService.predict features in
    let prediction := s_prediction result in
    let probability := s_probability result in
    let* now := time_time in
    let latency_ms := latency_between start_time now in
    let* timestamp := utcnow_isoformat in
    try_except
      (PredictionRepository.save_prediction prediction_repository
         features prediction probability latency_ms (Some timestamp) ;;
       ret ())
      (λ e, log ERROR (Lit "Failed to save prediction to database: "
                       :: str_exn e)) ;;
    log INFO [Lit "Prediction made: "; FInt prediction;
              Lit ", probability="; FFloat4 probability;
              Lit ", latency="; FFloat latency_ms; Lit "ms"] ;;
    PredictionResponse_init prediction probability latency_ms timestamp in
  match body w with
  | (inr r, w') => (inr r, w')
  | (inl e, w') =>
      match exn_cls e with
      | ModelLoadError =>
          (inl (mkHTTPException 503 [Lit "Model not loaded. Please check server logs."]),
           set_log (w_log w' ++ [(ERROR, Lit "Model not loaded: " :: str_exn e)]) w')
      | ValidationError =>
          (inl (mkHTTPException 400 (str_exn e)),
           set_log (w_log w' ++ [(WARNING, Lit "Validation error: " :: str_exn e)]) w')
      | PredictionError =>
          (inl (mkHTTPException 500 (Lit "Prediction failed: " :: str_exn e)),
           set_log (w_log w' ++ [(ERROR, Lit "Prediction error: " :: str_exn e)]) w')
      | _ =>
          (inl (mkHTTPException 500 [Lit "An unexpected error occurred"]),
           set_log (w_log w' ++ [(ERROR, Lit "Unexpected error during prediction: "
                                         :: str_exn e)]) w')
      end
  end.

(** The GET /health handler, over the two checks of the services it is
    given: [model_service.is_loaded()] and [db_manager.health_check()]. *)
Definition health_check (is_loaded : M bool) (db_health_check : M bool)
    : M HealthResponse :=
  try_except
    (let* model_loaded := is_loaded in
     let* database_connected := db_health_check in
     let '(status, message) :=
       if model_loaded && database_connected then
         ("healthy", [Lit "API is operational"])
       else
         let issues :=
           (if negb model_loaded then ["model not loaded"] else [])
           ++ (if negb database_connected then ["database not connected"] else []) in
         ("degraded", [Lit "API is degraded: "; Lit (String.concat ", " issues)]) in
     log DEBUG [Lit "Health check: status="; Lit status;
                Lit ", model="; FBool model_loaded;
                Lit ", db="; FBool database_connected] ;;
     ret (mkHealthResponse status message model_loaded database_connected))
    (λ e,
       log ERROR (Lit "Health check failed: " :: str_exn e) ;;
       ret (mkHealthResponse "error" (Lit "Health check failed: " :: str_exn e)
              false false)).

(** The handler on the services of the application. *)
Definition health (db_manager : DatabaseManager) : M HealthResponse :=
  health_check
    (let* s := ModelService.self in ret (ModelService.is_loaded s))
    (DatabaseManager.health_check db_manager).

End with_externals.
End Routes.

(** ** [src/api/dependencies.py] *)

(** [get_model_service], under [lru_cache]: [cached] tells whether an
    earlier call has returned, in which case the body is not run again;
    the result is the new state of the cache (a call that raises leaves
    nothing in it). *)
Definition get_model_service (cached : bool) : M bool :=
  if cached then ret true
  else
    let* service := ModelService.self in
    (if negb (ModelService.is_loaded service) then ModelService.load_model
     else ret ()) ;;
    ret true.

(** ** Repeated calls

    A caller that saves one prediction after the other, each call under
    its own [try], keeping what every call returned or raised. *)
Record SaveCall : Type := mkSaveCall {
  sc_features : Features;
  sc_prediction : Z;
  sc_probability : pyfloat;
  sc_latency_ms : pyfloat;
  sc_timestamp : option string
}.

Definition save_all `{Externals} (self : PredictionRepository)
    (calls : list SaveCall) : M (list (exn + Z)) :=
  for_each
    (λ c, try_except
            (let* id := PredictionRepository.save_prediction self
                          (sc_features c) (sc_prediction c) (sc_probability c)
                          (sc_latency_ms c) (sc_timestamp c) in
             ret (inr id))
            (λ e, ret (inl e)))
    calls.

(** The identifiers among the outcomes. *)
Definition returned_ids (outcomes : list (exn + Z)) : list Z :=
  omap (λ o, match o with inr id => Some id | inl _ => None end) outcomes.

(** [t1 < t2] on timestamps. *)
Definition ts_lt (t1 t2 : string) : Prop := String.le t1 t2 ∧ t1 ≠ t2.

(** ** Auxiliary definitions for the properties *)

(** The state of a service that went through [__init__], [load_model] and
    [reload_model] only: when [_loaded] is set, a model and a non-empty
    list of names are in place. *)
Definition Loaded (s : ModelService) (m : Model) (fl : list string) : Prop :=
  _loaded s = true ∧ model s = Some m ∧ feature_list s = Some (JsonList fl)
  ∧ fl ≠ [].

Definition service_ok (s : ModelService) : Prop :=
  _loaded s = true → ∃ m fl, Loaded s m fl.

(** The results of a loop whose body only computes. *)
Fixpoint collect {A B} (g : A → exn + B) (xs : list A) : exn + list B :=
  match xs with
  | [] => inr []
  | x :: xs' =>
      match g x with
      | inl e => inl e
      | inr y => match collect g xs' with
                 | inl e => inl e
                 | inr ys => inr (y :: ys)
                 end
      end
  end.

(** [prediction_of_row], and the parsing of the features in
  [get_feature_data], without the monad. *)
Definition parse_row `{Externals} (r : Row) : exn + Prediction :=
  match json_loads (row_features r) with
  | inl e => inl e
  | inr features =>
      inr (mkPrediction (row_id r) (row_timestamp r) features
             (row_prediction r) (row_probability r) (row_latency_ms r))
  end.

Definition parse_features `{Externals} (r : Row) : exn + Features :=
  json_loads (row_features r).

(** The timestamps of predictions, newest first. *)
Definition newest_first_order (p q : Prediction) : Prop :=
  String.le (p_timestamp q) (p_timestamp p).

(** The frame [load_reference_data] returns for a readable file. *)
Definition reference_of (raw : DataFrame) : DataFrame :=
  if bool_decide ("Class" ∈ df_columns raw) then df_drop "Class" raw else raw.

(** The world in which the body of [get_connection] starts: the
    connection is open on the committed table, and its opening is
    logged. *)
Definition opened (self : DatabaseManager) (w : World) : World :=
  let w1 := set_db (mkDatabase (db_fault (w_db w)) (db_committed (w_db w))
                      (Some (db_committed (w_db w)))) w in
  set_log (w_log w1 ++ [(DEBUG, [Lit "Database connection opened: ";
                                 Lit (db_path self)])]) w1.

(** [sqlite3.connect] does not raise. *)
Definition connects (w : World) : Prop :=
  ∀ m, db_fault (w_db w) ≠ Some (ConnectFails m).

(** * Example data

    Concrete worlds on which the properties below are exercised. *)

Global Instance Q_eq_dec : EqDecision Q.
Proof. solve_decision. Defined.
Global Instance pyfloat_eq_dec : EqDecision pyfloat.
Proof. solve_decision. Defined.

Module Examples.

(** A codec that knows a few feature mappings only. *)
Definition codec_table : list (Features * string) :=
  [ (∅, "{}");
    ({[ "a" := Finite 1 ]}, "{a: 1.0}");
    ({[ "b" := Finite 1 ]}, "{b: 1.0}");
    ({[ "Time" := Finite 0; "Amount" := Finite 1; "V1" := Finite 2 ]},
     "{Time: 0.0, Amount: 1.0, V1: 2.0}") ].

Definition dumps (f : Features) : string :=
  default "null" (snd <$> List.find (λ p, bool_decide (p.1 = f)) codec_table).

Definition loads (s : string) : exn + Features :=
  match List.find (λ p, String.eqb p.2 s) codec_table with
  | Some p => inr p.1
  | None => inl (mk_error ValueError [Lit "Expecting value"])
  end.

Definition millis (t0 t1 : pyfloat) : pyfloat :=
  match t0, t1 with
  | Finite a, Finite b => Finite ((b - a) * 1000)
  | _, _ => NaN
  end.

Definition externals : Externals :=
  {| json_dumps := dumps; json_loads := loads; latency_between := millis |}.

(** A classifier that refuses NaN, as scikit-learn's estimators do, and
    flags amounts above 1000. *)
Definition has_nan (row : list (string * pyfloat)) : bool :=
  existsb (λ c, is_nan c.2) row.
Definition large_amount (row : list (string * pyfloat)) : bool :=
  existsb (λ c, String.eqb c.1 "Amount" && float_ge c.2 (Finite 1000)) row.
Definition classifier : Model :=
  {| model_predict row :=
       if has_nan row then inl (mk_error ValueError [Lit "Input X contains NaN."])
       else inr (if large_amount row then 1 else 0);
     model_predict_proba row :=
       if has_nan row then inl (mk_error ValueError [Lit "Input X contains NaN."])
       else inr (Finite (if large_amount row then 9 # 10 else 1 # 10)) |}.

Definition schema : list string := ["Time"; "Amount"; "V1"].

Definition manager : DatabaseManager := mkDatabaseManager "artifacts/live_data.db".
Definition repository : PredictionRepository := mkPredictionRepository manager.
Definition settings : Settings :=
  mkSettings 500 "artifacts" "data/reference/reference_data.csv".

Definition empty_db : Database := mkDatabase None (mkTable [] 0) None.
Definition broken_db : Database :=
  mkDatabase (Some (ConnectFails [Lit "unable to open database file"]))
    (mkTable [] 0) None.

Definition reference : DataFrame :=
  mkDataFrame ["a"; "Class"]
    [ {[ "a" := Finite 1; "Class" := Finite 0 ]};
      {[ "a" := Finite 3; "Class" := Finite 1 ]} ].

Definition clock (n : nat) : pyfloat := Finite (Z.of_nat n # 1000).
Definition calendar (n : nat) : string :=
  match n with
  | 0%nat => "2024-01-01T12:00:00.000000"
  | 1%nat => "2024-01-01T12:00:00.000100"
  | 2%nat => "2024-01-01T12:00:00.000200"
  | _ => "2024-01-01T12:00:01.000000"
  end.

(** A world before [load_model], with the artifacts in place. *)
Definition fresh (db : Database) : World :=
  {| w_db := db;
     w_service := ModelService.init "artifacts/model.pkl" "artifacts/feature_list.json";
     w_model_file := Content classifier;
     w_features_file := Content (JsonList schema);
     w_reference_file := Content reference;
     w_report_fault := None;
     w_reports := [];
     w_time := clock;
     w_utcnow := calendar;
     w_ticks := 0;
     w_log := [] |}.

(** The same world once [load_model] has run. *)
Definition serving (db : Database) : World :=
  (ModelService.load_model (fresh db)).2.

Definition row (id : Z) (ts features : string) : Row :=
  mkRow id ts features 0 (Finite (1 # 10)) (Finite 2).

(** A request: time 0, amount 149.62, the other features 0. *)
Definition tx : Transaction :=
  mkTransaction (Finite 0) (Finite (14962 # 100))
    (Finite 0) (Finite 0) (Finite 0) (Finite 0) (Finite 0) (Finite 0) (Finite 0)
    (Finite 0) (Finite 0) (Finite 0) (Finite 0) (Finite 0) (Finite 0) (Finite 0)
    (Finite 0) (Finite 0) (Finite 0) (Finite 0) (Finite 0) (Finite 0) (Finite 0)
    (Finite 0) (Finite 0) (Finite 0) (Finite 0) (Finite 0) (Finite 0) (Finite 0).

(** A store holding one prediction, on the feature [b] alone. *)
Definition one_row_db : Database :=
  mkDatabase None (mkTable [row 1 "2024-01-01T00:00:00" "{b: 1.0}"] 1) None.

(** The monitoring service with the threshold of the settings, 500,
    and with a threshold of 1. *)
Definition monitoring : MonitoringService :=
  @MonitoringService.init settings repository None None.
Definition lenient_monitoring : MonitoringService :=
  @MonitoringService.init settings repository None (Some 1).

End Examples.

(** * Properties *)

(** ** Sorting *)

Global Arguments order_by_timestamp_desc : simpl never.
Global Arguments sorted : simpl never.

Global Instance ts_desc_trans : Transitive ts_desc.
Proof. intros r1 r2 r3 H12 H23. unfold ts_desc in *. by etrans. Qed.

Global Instance ts_desc_total : Total ts_desc.
Proof. intros r1 r2. unfold ts_desc. destruct (total String.le (row_timestamp r1) (row_timestamp r2)); auto. Qed.

Lemma elem_of_sorted (s : gset string) (x : string) : x ∈ sorted s ↔ x ∈ s.
Proof. unfold sorted. rewrite merge_sort_Permutation. apply elem_of_elements. Qed.

Lemma NoDup_sorted (s : gset string) : NoDup (sorted s).
Proof. unfold sorted. rewrite merge_sort_Permutation. apply NoDup_elements. Qed.

Lemma StronglySorted_sorted (s : gset string) : StronglySorted String.le (sorted s).
Proof. unfold sorted. apply StronglySorted_merge_sort; apply _. Qed.

Lemma sorted_nil_iff (s : gset string) : sorted s = [] ↔ s = ∅.
Proof.
  split.
  - intros Hnil. apply set_eq. intros x. rewrite <- elem_of_sorted, Hnil. set_solver.
  - intros ->. reflexivity.
Qed.

Lemma order_by_timestamp_desc_perm (rows : list Row) :
  order_by_timestamp_desc rows ≡ₚ rows.
Proof. apply merge_sort_Permutation. Qed.

Lemma order_by_timestamp_desc_sorted (rows : list Row) :
  StronglySorted ts_desc (order_by_timestamp_desc rows).
Proof. apply StronglySorted_merge_sort; apply _. Qed.

(** ** The model service *)


Lemma init_service_ok (mp fp : string) : service_ok (ModelService.init mp fp).
Proof. intros Hl. discriminate Hl. Qed.

Lemma Loaded_is_loaded (s : ModelService) m fl :
  Loaded s m fl → ModelService.is_loaded s = true.
Proof.
  intros (Hl & Hm & Hf & _). unfold ModelService.is_loaded.
  rewrite Hl, Hm, Hf. reflexivity.
Qed.

Ltac unfold_monad :=
  unfold try_except, try_finally, bind, ret, raise, log, modify, get_world,
    lift_result, time_time, utcnow_isoformat in *.

Lemma load_model_Loaded (w w' : World) :
  service_ok (w_service w) →
  ModelService.load_model w = (inr (), w') →
  ∃ m fl, Loaded (w_service w') m fl.
Proof.
  intros Hok Hload. unfold ModelService.load_model in Hload.
  unfold ModelService.self, ModelService.exists_file, ModelService.read_file,
    ModelService.set_model, ModelService.set_feature_list,
    ModelService.set_loaded in Hload.
  unfold_monad.
  destruct w as [db [mp fp mo flo ld] mf ff rf rfault reps tm utc tk lg].
  simpl in *.
  destruct ld.
  - simplify_eq/=. by apply Hok.
  - destruct mf as [|e|m], ff as [|e'|[l|]]; simpl in Hload;
      repeat case_decide; try discriminate.
    case_bool_decide as Hlen; simpl in Hload; [discriminate|].
    simplify_eq/=. exists m, l. repeat split.
    intros ->. by apply Hlen.
Qed.

Example serving_is_loaded :
  ∃ m fl, Loaded (w_service (Examples.serving Examples.empty_db)) m fl.
Proof. eexists _, _. repeat split. done. Qed.

Lemma select_columns_Some (fl : list string) (features : Features) :
  (∀ k, k ∈ fl → is_Some (features !! k)) →
  ∃ row, select_columns fl features = Some row.
Proof.
  intros Hall. unfold select_columns.
  induction fl as [|k fl IH]; [by eexists|].
  destruct (Hall k) as [v Hv]; [set_solver|].
  destruct IH as [row Hrow]; [intros; apply Hall; set_solver|].
  exists ((k, v) :: row). simpl in *. by rewrite Hv, Hrow.
Qed.

Lemma missing_features_empty (fl : list string) (features : Features) :
  (∀ k, k ∈ fl → is_Some (features !! k)) ↔
  (list_to_set fl ∖ dom features : gset string) = ∅.
Proof.
  split.
  - intros Hall. apply set_eq. intros k.
    rewrite elem_of_difference, elem_of_list_to_set, elem_of_dom.
    split; [intros [Hin Hno]; destruct Hno; by apply Hall | set_solver].
  - intros Hempty k Hin. apply elem_of_dom.
    destruct (decide (k ∈ dom features)); [done|].
    assert (k ∈ (list_to_set fl ∖ dom features : gset string)) as Hk by set_solver.
    rewrite Hempty in Hk. set_solver.
Qed.

(** C5: on a loaded service, a feature mapping that lacks a name of the
    schema makes [predict] fail with a PredictionError whose message and
    details carry the missing names, exactly those, sorted. *)
Theorem predict_missing_features
    (w : World) (m : Model) (fl : list string) (features : Features) :
  Loaded (w_service w) m fl →
  (∃ k, k ∈ fl ∧ features !! k = None) →
  let missing := sorted (list_to_set fl ∖ dom features) in
  ModelService.predict features w
  = (inl (Exn PredictionError [Lit "Missing features: "; FStrs missing]
            [("missing_features", missing)]), w)
  ∧ (∀ k, k ∈ missing ↔ k ∈ fl ∧ features !! k = None)
  ∧ StronglySorted String.le missing
  ∧ NoDup missing.
Proof.
  intros HL (k & Hk & Hnone) missing. split; [|split; [|split]].
  - unfold ModelService.predict, ModelService.self. unfold_monad.
    rewrite (Loaded_is_loaded _ _ _ HL).
    destruct HL as (_ & -> & -> & _). simpl.
    case_bool_decide as Hmiss; [done|].
    exfalso.
    destruct (proj2 (missing_features_empty fl features) Hmiss k Hk) as [v Hv].
    congruence.
  - intros k'. unfold missing.
    rewrite elem_of_sorted, elem_of_difference, elem_of_list_to_set,
      not_elem_of_dom. done.
  - apply StronglySorted_sorted.
  - apply NoDup_sorted.
Qed.

Lemma predict_missing_features_witness :
  let w := Examples.serving Examples.empty_db in
  let features : Features := {[ "Time" := Finite 0; "extra" := Finite 5 ]} in
  Loaded (w_service w) Examples.classifier Examples.schema
  ∧ (∃ k, k ∈ Examples.schema ∧ features !! k = None)
  ∧ ModelService.predict features w
    = (inl (Exn PredictionError [Lit "Missing features: "; FStrs ["Amount"; "V1"]]
              [("missing_features", ["Amount"; "V1"])]), w).
Proof.
  intros w features.
  assert (Loaded (w_service w) Examples.classifier Examples.schema) as HL
    by (repeat split; done).
  assert (∃ k, k ∈ Examples.schema ∧ features !! k = None) as Hk
    by (exists "V1"; split; [set_solver | reflexivity]).
  split; [exact HL|]. split; [exact Hk|].
  exact (proj1 (predict_missing_features w _ _ features HL Hk)).
Defined.

(** What [predict] does once the features cover the schema: the model is
    run on the cells in schema order. *)
Lemma predict_on_complete_features
    (w : World) (m : Model) (fl : list string) (features : Features) :
  Loaded (w_service w) m fl →
  (∀ k, k ∈ fl → is_Some (features !! k)) →
  ∃ row, select_columns fl features = Some row ∧
    match model_predict m row, model_predict_proba m row with
    | inr label, inr p =>
        (ModelService.predict features w).1 = inr (mkScored label p)
    | _, _ =>
        ∃ e, (ModelService.predict features w).1 = inl e
             ∧ exn_cls e = PredictionError
    end.
Proof.
  intros HL Hall.
  destruct (select_columns_Some fl features Hall) as [row Hrow].
  exists row. split; [done|].
  unfold ModelService.predict, ModelService.self. unfold_monad.
  rewrite (Loaded_is_loaded _ _ _ HL).
  destruct HL as (_ & -> & -> & _). simpl.
  rewrite (proj1 (missing_features_empty fl features) Hall).
  rewrite bool_decide_eq_false_2 by (intros Hne; by apply Hne).
  case_bool_decide; simpl; rewrite Hrow; simpl;
    destruct (model_predict m row) as [e1|label]; simpl;
    try (destruct (model_predict_proba m row) as [e2|p]; simpl);
    try done;
    repeat case_decide; simpl; eauto.
Qed.

(** C6, as the code has it: without a loaded model [predict] fails with
    ModelLoadError; after a successful [load_model], on features that
    cover the schema, [predict] returns the label and the probability
    the model gives for the cells in schema order, and fails with a
    PredictionError when the model raises. *)
Theorem predict_after_load (w0 w : World) (features : Features) :
  (ModelService.is_loaded (w_service w) = false →
   ModelService.predict features w = (inl ModelService.not_loaded_error, w)
   ∧ exn_cls ModelService.not_loaded_error = ModelLoadError)
  ∧ (service_ok (w_service w0) →
     ModelService.load_model w0 = (inr (), w) →
     ∃ m fl, Loaded (w_service w) m fl ∧
       ((∀ k, k ∈ fl → is_Some (features !! k)) →
        ∃ row, select_columns fl features = Some row ∧
          match model_predict m row, model_predict_proba m row with
          | inr label, inr p =>
              (ModelService.predict features w).1 = inr (mkScored label p)
          | _, _ =>
              ∃ e, (ModelService.predict features w).1 = inl e
                   ∧ exn_cls e = PredictionError
          end)).
Proof.
  split.
  - intros Hno. split; [|done].
    unfold ModelService.predict, ModelService.self. unfold_monad.
    by rewrite Hno.
  - intros Hok Hload.
    destruct (load_model_Loaded w0 w Hok Hload) as (m & fl & HL).
    exists m, fl. split; [done|].
    by apply predict_on_complete_features.
Qed.

Lemma predict_after_load_witness :
  let w0 := Examples.fresh Examples.empty_db in
  let w := Examples.serving Examples.empty_db in
  let features : Features :=
    {[ "Time" := Finite 0; "Amount" := Finite 2500; "V1" := Finite 2 ]} in
  ModelService.predict features w0 = (inl ModelService.not_loaded_error, w0)
  ∧ ModelService.load_model w0 = (inr (), w)
  ∧ (ModelService.predict features w).1 = inr (mkScored 1 (Finite (9 # 10))).
Proof.
  intros w0 w features.
  destruct (predict_after_load w0 w0 features) as [Hbefore _].
  destruct (predict_after_load w0 w features) as [_ Hafter].
  split; [exact (proj1 (Hbefore eq_refl))|].
  split; [reflexivity|].
  destruct (Hafter (init_service_ok _ _) eq_refl)
    as (m & fl & (_ & Hm & Hfl & _) & Hscore).
  injection Hm as <-. injection Hfl as <-.
  destruct Hscore as (row & Hrow & Hres).
  - intros k Hk. unfold Examples.schema in Hk.
    repeat (apply elem_of_cons in Hk as [->|Hk]; [by eexists|]).
    by apply elem_of_nil in Hk.
  - injection Hrow as <-. exact Hres.
Defined.

(** C6 as stated fails: the features cover the schema, the model is
    loaded, and [predict] fails, because the model refuses a NaN. *)
Lemma predict_complete_features_fails :
  let w0 := Examples.fresh Examples.empty_db in
  let w := Examples.serving Examples.empty_db in
  let features : Features :=
    {[ "Time" := Finite 0; "Amount" := NaN; "V1" := Finite 2 ]} in
  ModelService.load_model w0 = (inr (), w)
  ∧ (∀ k, k ∈ Examples.schema → is_Some (features !! k))
  ∧ (ModelService.predict features w).1
    = inl (mk_error PredictionError
             [Lit "Prediction failed: "; Lit "Input X contains NaN."]).
Proof.
  intros w0 w features. split; [reflexivity|]. split; [|reflexivity].
  intros k Hk. unfold Examples.schema in Hk.
  repeat (apply elem_of_cons in Hk as [->|Hk]; [by eexists|]).
  by apply elem_of_nil in Hk.
Qed.

(** ** The repository *)


Lemma for_each_collect {A B} (f : A → M B) (g : A → exn + B) (xs : list A) :
  (∀ x w, f x w = (g x, w)) →
  ∀ w, for_each f xs w = (collect g xs, w).
Proof.
  intros Hf. induction xs as [|x xs IH]; intros w; [done|].
  simpl. unfold bind. rewrite Hf.
  destruct (g x) as [e|y]; [done|]. rewrite IH.
  by destruct (collect g xs).
Qed.

Lemma collect_length {A B} (g : A → exn + B) (xs : list A) (ys : list B) :
  collect g xs = inr ys → length ys = length xs.
Proof.
  revert ys. induction xs as [|x xs IH]; intros ys Hc; simpl in Hc.
  - by simplify_eq.
  - destruct (g x); [done|]. destruct (collect g xs); [done|].
    simplify_eq. simpl. f_equal. by apply IH.
Qed.

Lemma collect_Forall2 {A B} (g : A → exn + B) (xs : list A) (ys : list B) :
  collect g xs = inr ys ↔ Forall2 (λ x y, g x = inr y) xs ys.
Proof.
  revert ys. induction xs as [|x xs IH]; intros ys; simpl.
  - split; [intros; simplify_eq; constructor | by inversion 1].
  - split.
    + destruct (g x) eqn:Hg; [done|]. destruct (collect g xs) eqn:Hc; [done|].
      intros; simplify_eq. constructor; [done|]. by apply IH.
    + inversion 1 as [|? y ? ys' Hg Hrest]; simplify_eq.
      rewrite Hg. apply IH in Hrest. by rewrite Hrest.
Qed.

Lemma collect_total {A B} (g : A → exn + B) (xs : list A) :
  Forall (λ x, ∃ y, g x = inr y) xs → ∃ ys, collect g xs = inr ys.
Proof.
  induction 1 as [|x xs [y Hy] _ [ys Hys]]; [by eexists|].
  exists (y :: ys). simpl. by rewrite Hy, Hys.
Qed.

Section repository.
Context `{Externals}.


Lemma prediction_of_row_pure (r : Row) (w : World) :
  PredictionRepository.prediction_of_row r w = (parse_row r, w).
Proof.
  unfold PredictionRepository.prediction_of_row, parse_row. unfold_monad.
  by destruct (json_loads (row_features r)).
Qed.

Lemma parse_features_pure (r : Row) (w : World) :
  lift_result (json_loads (row_features r)) w = (parse_features r, w).
Proof.
  unfold parse_features, lift_result.
  by destruct (json_loads (row_features r)).
Qed.

(** A healthy engine answers [get_predictions] with the selected rows
    of the committed table, provided their features parse. *)
Lemma get_predictions_no_fault self limit offset s e (w : World) ps :
  db_fault (w_db w) = None →
  collect parse_row
    (PredictionRepository.select_predictions limit offset s e
       (db_committed (w_db w))) = inr ps →
  (PredictionRepository.get_predictions self limit offset s e w).1 = inr ps.
Proof.
  intros Hfault Hps.
  destruct w as [[fault c conn] svc mf ff rf rfault reps tm utc tk lg].
  simpl in *. subst fault.
  unfold PredictionRepository.get_predictions, DatabaseManager.get_connection,
    sqlite_connect, conn_table, conn_commit, conn_rollback, conn_close.
  unfold_monad. simpl.
  rewrite (for_each_collect _ parse_row) by apply prediction_of_row_pure.
  rewrite Hps. reflexivity.
Qed.

(** A call of [save_prediction] that returns has appended one row,
    under the next key, to the committed table. *)
Lemma save_prediction_inr self features p pr l ts (w w' : World) id :
  PredictionRepository.save_prediction self features p pr l ts w = (inr id, w') →
  let c := db_committed (w_db w) in
  let stamp := default (w_utcnow w (w_ticks w)) ts in
  db_fault (w_db w) = None
  ∧ id = Z.max (t_seq c) (max_rowid (t_rows c)) + 1
  ∧ w_db w'
    = mkDatabase None
        (mkTable (t_rows c ++ [mkRow id stamp (json_dumps features) p pr l]) id)
        None.
Proof.
  destruct w as [[fault c conn] svc mf ff rf rfault reps tm utc tk lg].
  unfold PredictionRepository.save_prediction, DatabaseManager.get_connection,
    execute_insert, set_conn,
    sqlite_connect, conn_table, conn_commit, conn_rollback, conn_close.
  unfold_monad. simpl.
  destruct ts as [t|], fault as [[m|m]|]; simpl; try discriminate;
    repeat (match goal with
            | |- context [if ?b then _ else _] => destruct b eqn:?; simpl
            end; try discriminate);
    intros; simplify_eq; auto.
Qed.

(** Whatever a call of [save_prediction] does, the AUTOINCREMENT
    counter does not go back, and an identifier that is returned is
    above the counter and becomes the counter. *)
Lemma save_prediction_seq self features p pr l ts (w : World) :
  let '(r, w') := PredictionRepository.save_prediction self features p pr l ts w in
  t_seq (db_committed (w_db w)) ≤ t_seq (db_committed (w_db w'))
  ∧ match r with
    | inr id => t_seq (db_committed (w_db w)) < id
                ∧ t_seq (db_committed (w_db w')) = id
    | inl _ => True
    end.
Proof.
  destruct (PredictionRepository.save_prediction self features p pr l ts w)
    as [[e|id] w'] eqn:Hsave.
  - split; [|done].
    destruct w as [[fault c conn] svc mf ff rf rfault reps tm utc tk lg].
    revert Hsave.
    unfold PredictionRepository.save_prediction, DatabaseManager.get_connection,
      execute_insert, set_conn,
      sqlite_connect, conn_table, conn_commit, conn_rollback, conn_close.
    unfold_monad. simpl.
    destruct ts as [t|], fault as [[m|m]|]; simpl;
      repeat (match goal with
              | |- context [if ?b then _ else _] => destruct b eqn:?; simpl
              end);
      intros; simplify_eq; simpl; lia.
  - apply save_prediction_inr in Hsave as (_ & Hid & ->). simpl. lia.
Qed.

Lemma save_all_ids self (calls : list SaveCall) (w : World) :
  ∃ outcomes w', save_all self calls w = (inr outcomes, w')
  ∧ length outcomes = length calls
  ∧ Forall (λ id, t_seq (db_committed (w_db w)) < id) (returned_ids outcomes)
  ∧ StronglySorted Z.lt (returned_ids outcomes).
Proof.
  revert w. induction calls as [|c calls IH]; intros w.
  - eexists [], w. repeat split; constructor.
  - pose proof (save_prediction_seq self (sc_features c) (sc_prediction c)
                  (sc_probability c) (sc_latency_ms c) (sc_timestamp c) w) as Hseq.
    unfold save_all in *. simpl. unfold bind at 1. unfold try_except at 1.
    unfold bind at 1.
    destruct (PredictionRepository.save_prediction self (sc_features c)
                (sc_prediction c) (sc_probability c) (sc_latency_ms c)
                (sc_timestamp c) w) as [[e|id] w1];
      destruct (IH w1) as (outs & w2 & Hrun & Hlen & Hall & Hsorted);
      unfold ret at 1; unfold bind at 1; rewrite Hrun;
      eexists _, _; (split; [reflexivity|]); simpl;
      (split; [by rewrite Hlen|]).
    + destruct Hseq as [Hle _]. split; [|done].
      eapply Forall_impl; [exact Hall|]. simpl. lia.
    + destruct Hseq as [Hle [Hlt Heq]]. rewrite Heq in Hall. split.
      * constructor; [done|]. eapply Forall_impl; [exact Hall|]. simpl. lia.
      * by constructor.
Qed.

Lemma filter_all_rows (rows : list Row) :
  filter (λ r, PredictionRepository.in_time_range None None r = true) rows = rows.
Proof.
  induction rows as [|r rows IH]; [done|].
  rewrite filter_cons_True by done. by rewrite IH.
Qed.

(** A row strictly newer than all the others comes first. *)
Lemma newest_first (rows : list Row) (x : Row) :
  (∀ r, r ∈ rows → ts_lt (row_timestamp r) (row_timestamp x)) →
  ∃ rest, order_by_timestamp_desc (rows ++ [x]) = x :: rest.
Proof.
  intros Hnew.
  pose proof (order_by_timestamp_desc_perm (rows ++ [x])) as Hperm.
  pose proof (order_by_timestamp_desc_sorted (rows ++ [x])) as Hsorted.
  destruct (order_by_timestamp_desc (rows ++ [x])) as [|h rest].
  { apply Permutation_nil_l in Hperm. by destruct rows. }
  assert (h ∈ rows ++ [x]) as Hh by (rewrite <- Hperm; left).
  apply elem_of_app in Hh as [Hh| ->%list_elem_of_singleton]; [|by eexists].
  assert (x ∈ h :: rest) as Hx by (rewrite Hperm; set_solver).
  apply elem_of_cons in Hx as [->|Hx]; [by eexists|].
  exfalso. apply StronglySorted_inv in Hsorted as [_ Hall].
  rewrite Forall_forall in Hall. specialize (Hall x Hx).
  destruct (Hnew h Hh) as [Hle Hne]. apply Hne.
  unfold ts_desc in Hall. by apply (anti_symm String.le).
Qed.


End repository.



(** ** Ordering and bounds of [get_predictions] *)

Lemma StronglySorted_sublist {A} (R : relation A) (l1 l2 : list A) :
  l1 `sublist_of` l2 → StronglySorted R l2 → StronglySorted R l1.
Proof.
  induction 1 as [|x l1 l2 Hsub IH|x l1 l2 Hsub IH]; intros Hs; [done|..].
  - apply StronglySorted_inv in Hs as [Hs Hall]. constructor; [by apply IH|].
    rewrite Forall_forall in *. intros y Hy. apply Hall.
    by eapply elem_of_sublist.
  - apply StronglySorted_inv in Hs as [Hs _]. by apply IH.
Qed.

Lemma Forall2_elem_of_r {A B} (R : A → B → Prop) (l : list A) (k : list B) (y : B) :
  Forall2 R l k → y ∈ k → ∃ x, x ∈ l ∧ R x y.
Proof.
  induction 1 as [|x y' l k HR _ IH]; intros Hy; [by apply elem_of_nil in Hy|].
  apply elem_of_cons in Hy as [->|Hy].
  - exists x. split; [left | done].
  - destruct (IH Hy) as (x' & Hx' & HR'). exists x'. split; [by right | done].
Qed.

Lemma Forall2_elem_of_l {A B} (R : A → B → Prop) (l : list A) (k : list B) (x : A) :
  Forall2 R l k → x ∈ l → ∃ y, y ∈ k ∧ R x y.
Proof.
  induction 1 as [|x' y l k HR _ IH]; intros Hx; [by apply elem_of_nil in Hx|].
  apply elem_of_cons in Hx as [->|Hx].
  - exists y. split; [left | done].
  - destruct (IH Hx) as (y' & Hy' & HR'). exists y'. split; [by right | done].
Qed.

Lemma limit_offset_sublist (limit offset : Z) (rows : list Row) :
  limit_offset limit offset rows `sublist_of` rows.
Proof.
  unfold limit_offset. destruct (limit <? 0).
  - apply sublist_drop.
  - etrans; [apply sublist_take | apply sublist_drop].
Qed.

Lemma String_le_empty (s : string) : String.le "" s.
Proof. by destruct s. Qed.


Section ordering.
Context `{Externals}.

Lemma select_predictions_sublist limit offset s e (t : Table) :
  PredictionRepository.select_predictions limit offset s e t
  `sublist_of` order_by_timestamp_desc
    (filter (λ r, PredictionRepository.in_time_range s e r = true) (t_rows t)).
Proof.
  unfold PredictionRepository.select_predictions.
  destruct (truthy_int limit); [apply limit_offset_sublist | done].
Qed.

Lemma select_predictions_sorted limit offset s e (t : Table) :
  StronglySorted ts_desc (PredictionRepository.select_predictions limit offset s e t).
Proof.
  eapply StronglySorted_sublist; [apply select_predictions_sublist|].
  apply order_by_timestamp_desc_sorted.
Qed.

Lemma in_time_range_bounds s e (r : Row) :
  PredictionRepository.in_time_range s e r = true →
  (∀ s', s = Some s' → String.le s' (row_timestamp r))
  ∧ (∀ e', e = Some e' → e' ≠ "" → String.le (row_timestamp r) e').
Proof.
  unfold PredictionRepository.in_time_range.
  intros [Hs He]%andb_true_iff. split.
  - intros s' Hs'. subst s. simpl in Hs.
    destruct (String.eqb_spec s' "") as [Heq|_].
    + rewrite Heq. apply String_le_empty.
    + simpl in Hs. by apply bool_decide_eq_true in Hs.
  - intros e' He' Hne. subst e. simpl in He.
    destruct (String.eqb_spec e' "") as [Heq|_]; [done|].
    simpl in He. by apply bool_decide_eq_true in He.
Qed.

Lemma in_time_range_complete s e (r : Row) :
  (∀ s', s = Some s' → String.le s' (row_timestamp r)) →
  (∀ e', e = Some e' → String.le (row_timestamp r) e') →
  PredictionRepository.in_time_range s e r = true.
Proof.
  intros Hs He. unfold PredictionRepository.in_time_range.
  apply andb_true_iff. split.
  - destruct s as [s'|]; [|done]. simpl. destruct (negb _); [|done].
    apply bool_decide_eq_true. by apply Hs.
  - destruct e as [e'|]; [|done]. simpl. destruct (negb _); [|done].
    apply bool_decide_eq_true. by apply He.
Qed.

Lemma select_predictions_elem limit offset s e (t : Table) (r : Row) :
  r ∈ PredictionRepository.select_predictions limit offset s e t →
  r ∈ t_rows t ∧ PredictionRepository.in_time_range s e r = true.
Proof.
  intros Hr. eapply elem_of_sublist in Hr; [|apply select_predictions_sublist].
  rewrite order_by_timestamp_desc_perm in Hr.
  by apply list_elem_of_filter in Hr as [? ?].
Qed.

Lemma select_predictions_no_limit limit offset s e (t : Table) (r : Row) :
  truthy_int limit = false →
  r ∈ t_rows t → PredictionRepository.in_time_range s e r = true →
  r ∈ PredictionRepository.select_predictions limit offset s e t.
Proof.
  intros Hl Hr Hin. unfold PredictionRepository.select_predictions.
  rewrite Hl, order_by_timestamp_desc_perm. by apply list_elem_of_filter.
Qed.

Lemma parse_row_timestamp (r : Row) (p : Prediction) :
  parse_row r = inr p → p_timestamp p = row_timestamp r.
Proof.
  unfold parse_row. destruct (json_loads (row_features r)); [done|].
  by intros [= <-].
Qed.

Lemma parsed_sorted (rows : list Row) (ps : list Prediction) :
  Forall2 (λ r p, parse_row r = inr p) rows ps →
  StronglySorted ts_desc rows → StronglySorted newest_first_order ps.
Proof.
  induction 1 as [|r p rows ps Hp Hrest IH]; intros Hs; [constructor|].
  apply StronglySorted_inv in Hs as [Hs Hall]. constructor; [by apply IH|].
  clear IH Hs. induction Hrest as [|r' p' rows ps Hp' Hrest IH]; [constructor|].
  apply Forall_cons in Hall as [Hr' Hall]. constructor; [|by apply IH].
  unfold newest_first_order, ts_desc in *.
  by rewrite (parse_row_timestamp _ _ Hp), (parse_row_timestamp _ _ Hp').
Qed.

End ordering.

Section query_order.
Context `{Externals}.

Lemma three_rows_sorted (r1 r2 r3 : Row) :
  ts_lt (row_timestamp r1) (row_timestamp r2) →
  ts_lt (row_timestamp r2) (row_timestamp r3) →
  order_by_timestamp_desc ([] ++ [r1] ++ [r2] ++ [r3]) = [r3; r2; r1].
Proof.
  intros [H12 N12] [H23 N23].
  assert (String.le (row_timestamp r1) (row_timestamp r3)) as H13 by by etrans.
  assert (row_timestamp r1 ≠ row_timestamp r3) as N13.
  { intros Heq. rewrite <- Heq in H23. apply N12. by apply (anti_symm String.le). }
  apply (StronglySorted_unique_strong ts_desc).
  - intros x1 x2 Hx1 Hx2 Ha Hb.
    assert (row_timestamp x1 = row_timestamp x2) as Heq
      by (unfold ts_desc in *; by apply (anti_symm String.le)).
    rewrite order_by_timestamp_desc_perm in Hx1. simpl in Hx1.
    repeat (apply elem_of_cons in Hx1 as [->|Hx1]);
      try (by apply elem_of_nil in Hx1);
      repeat (apply elem_of_cons in Hx2 as [->|Hx2]);
      try (by apply elem_of_nil in Hx2);
      try done; congruence.
  - apply order_by_timestamp_desc_sorted.
  - repeat constructor; done.
  - rewrite order_by_timestamp_desc_perm. simpl.
    change [r3; r2; r1] with (reverse [r1; r2; r3]).
    by rewrite reverse_Permutation.
Qed.


End query_order.


(** ** Falsy limits *)


(** With limit 0 and offset 1 the three rows of the table all come back. *)
Example limit_zero_returns_all :
  let db := mkDatabase None
              (mkTable [ Examples.row 1 "2024-03-01T00:00:00" "{a: 1.0}";
                         Examples.row 2 "2024-01-01T00:00:00" "{b: 1.0}";
                         Examples.row 3 "2024-02-01T00:00:00" "{}" ] 3) None in
  match (@PredictionRepository.get_predictions Examples.externals
           Examples.repository (Some 0) 1 None None (Examples.serving db)).1 with
  | inr ps => p_id <$> ps = [1; 3; 2]
  | inl _ => False
  end.
Proof. reflexivity. Qed.

(** ** Drift detection *)

Section drift.
Context `{Externals}.

Ltac unfold_drift :=
  unfold MonitoringService.detect_drift, MonitoringService.load_reference_data,
    MonitoringService.run_and_save_report,
    PredictionRepository.get_feature_data,
    PredictionRepository.read_sql_features, DatabaseManager.get_connection,
    ModelService.exists_file, ModelService.read_file,
    sqlite_connect, conn_table, conn_commit, conn_rollback, conn_close;
  unfold_monad.

Lemma select_features_nil limit (t : Table) :
  t_rows t = [] → PredictionRepository.select_features limit t = [].
Proof.
  intros Hrows. unfold PredictionRepository.select_features. rewrite Hrows.
  change (order_by_timestamp_desc []) with (@nil Row).
  destruct (truthy_int limit); [|done].
  unfold limit_offset. rewrite drop_nil, take_nil. by destruct (_ <? _).
Qed.


Local Arguments DataFrame_of_records : simpl never.
Local Arguments df_is_empty : simpl never.
Local Arguments df_len : simpl never.
Local Arguments df_reindex : simpl never.
Local Arguments PredictionRepository.select_features : simpl never.
Local Arguments MonitoringService.feature_mismatch_error : simpl never.
Local Arguments MonitoringService.not_enough_data_error : simpl never.
Local Arguments MonitoringService.no_live_data_error : simpl never.

Lemma df_len_of_records (records : list Features) :
  df_len (DataFrame_of_records records) = Z.of_nat (length records).
Proof. reflexivity. Qed.

Lemma parsed_rows_nonempty (rows : list Row) (records : list Features) :
  collect parse_features rows = inr records →
  df_is_empty (DataFrame_of_records records) = false →
  bool_decide (rows = []) = false.
Proof.
  intros Hc Hne. apply bool_decide_eq_false. intros ->.
  simpl in Hc. by simplify_eq.
Qed.



Lemma elem_of_columns_of_records (records : list Features) (c : string) :
  c ∈ df_columns (DataFrame_of_records records)
  ↔ ∃ record, record ∈ records ∧ is_Some (record !! c).
Proof.
  unfold DataFrame_of_records. simpl.
  rewrite elem_of_elements, elem_of_union_list. split.
  - intros (X & HX & Hc). apply list_elem_of_fmap in HX as (record & -> & Hr).
    exists record. split; [done|]. by apply elem_of_dom.
  - intros (record & Hr & Hc). exists (dom record). split.
    + apply list_elem_of_fmap. eauto.
    + by apply elem_of_dom.
Qed.


End drift.





(** ** The route handlers *)

(** [predict] reads the service and writes the log, nothing else. *)
Lemma predict_reads_service (features : Features) (w w' : World) :
  w_service w' = w_service w →
  ∃ l, ModelService.predict features w'
       = ((ModelService.predict features w).1, set_log (w_log w' ++ l) w').
Proof.
  intros Hsvc.
  assert (∀ l, w_log w' ++ l = w_log w' ++ l → ∀ r : exn + Scored,
            ∃ l', (r, set_log (w_log w' ++ l) w') = (r, set_log (w_log w' ++ l') w'))
    as Hone by (intros l _ r; by exists l).
  assert (∀ r : exn + Scored, ∃ l', (r, w') = (r, set_log (w_log w' ++ l') w'))
    as Hnil.
  { intros r. exists []. destruct w'. unfold set_log. simpl. by rewrite app_nil_r. }
  assert (∀ l1 l2 (r : exn + Scored),
            ∃ l', (r, set_log (w_log (set_log (w_log w' ++ l1) w') ++ l2)
                        (set_log (w_log w' ++ l1) w'))
                  = (r, set_log (w_log w' ++ l') w')) as Htwo.
  { intros l1 l2 r. exists (l1 ++ l2). unfold set_log. simpl. by rewrite app_assoc. }
  unfold ModelService.predict, ModelService.self. unfold_monad.
  rewrite Hsvc.
  destruct (negb (ModelService.is_loaded (w_service w))); [apply Hnil|].
  destruct (model (w_service w)) as [m|];
    [destruct (feature_list (w_service w)) as [[fl|]|]|];
    simpl; try by apply Hone.
  case_bool_decide; simpl; [apply Hnil|].
  case_bool_decide; simpl;
    (destruct (select_columns fl features) as [row|]; simpl;
     [destruct (model_predict m row) as [e1|label]; simpl;
      [|destruct (model_predict_proba m row) as [e2|p]; simpl]|]);
    repeat case_decide; simpl;
    first [apply Hnil | by apply Hone | apply Htwo].
Qed.

Section routes.
Context `{Externals}.


End routes.


(** C9: the health handler returns a response and never raises: the
    status is "healthy" when the model is loaded and the database
    answers, "degraded" when one of the two does not, and "error" only
    when a check raises; the check of the database manager itself never
    raises, and the handler on the services of the application reports
    "healthy" or "degraded". *)
Theorem health_check_never_raises
    (is_loaded db_health_check : M bool) (db_manager : DatabaseManager) (w : World) :
  (∃ r w', Routes.health_check is_loaded db_health_check w = (inr r, w')
     ∧ match is_loaded w with
       | (inl _, _) => status r = "error"
       | (inr loaded, w1) =>
           match db_health_check w1 with
           | (inl _, _) => status r = "error"
           | (inr connected, _) =>
               model_loaded r = loaded
               ∧ database_connected r = connected
               ∧ status r = (if loaded && connected then "healthy" else "degraded")
           end
       end)
  ∧ (∃ connected w',
       DatabaseManager.health_check db_manager w = (inr connected, w')
       ∧ connected = bool_decide (db_fault (w_db w) = None))
  ∧ (∃ r w', Routes.health db_manager w = (inr r, w')
       ∧ model_loaded r = ModelService.is_loaded (w_service w)
       ∧ database_connected r = bool_decide (db_fault (w_db w) = None)
       ∧ status r = (if model_loaded r && database_connected r
                     then "healthy" else "degraded")).
Proof.
  split; [|split].
  - unfold Routes.health_check. unfold_monad.
    destruct (is_loaded w) as [[e|loaded] w1]; simpl; [by eexists _, _|].
    destruct (db_health_check w1) as [[e|connected] w2]; simpl; [by eexists _, _|].
    destruct loaded, connected; simpl; by eexists _, _.
  - unfold DatabaseManager.health_check, DatabaseManager.get_connection,
      sqlite_connect, conn_table, conn_commit, conn_rollback, conn_close.
    unfold_monad.
    destruct w as [[fault c conn] svc mf ff rf rfault reps tm utc tk lg]. simpl.
    destruct fault as [[m|m]|]; simpl; by eexists _, _.
  - unfold Routes.health, Routes.health_check,
      DatabaseManager.health_check, DatabaseManager.get_connection,
      ModelService.self,
      sqlite_connect, conn_table, conn_commit, conn_rollback, conn_close.
    unfold_monad.
    destruct w as [[fault c conn] svc mf ff rf rfault reps tm utc tk lg]. simpl.
    destruct fault as [[m|m]|]; simpl;
      destruct (ModelService.is_loaded svc); simpl; by eexists _, _.
Qed.

(** The two degraded states and the healthy one. *)
Example health_states :
  ∃ r1 r2 r3,
    (Routes.health Examples.manager (Examples.serving Examples.empty_db)).1 = inr r1
    ∧ (Routes.health Examples.manager (Examples.serving Examples.broken_db)).1 = inr r2
    ∧ (Routes.health Examples.manager (Examples.fresh Examples.empty_db)).1 = inr r3
    ∧ status <$> [r1; r2; r3] = ["healthy"; "degraded"; "degraded"].
Proof. eexists _, _, _. repeat split. Qed.


(** * Further properties of the code *)

(** ** The connection manager *)

Ltac unfold_connection :=
  unfold DatabaseManager.get_connection, sqlite_connect, conn_table,
    conn_commit, conn_rollback, conn_close, set_conn;
  unfold_monad.

(** X1.  [get_connection] leaves no connection open: whatever the body does,
    and whether it returns or raises, the connection it opened is closed
    when the block is left. *)
Theorem get_connection_releases {A} self (body : M A) (w : World) :
  db_conn (w_db w) = None →
  db_conn (w_db (DatabaseManager.get_connection self body w).2) = None.
Proof.
  intros Hnone. unfold_connection.
  destruct w as [[fault c conn] svc mf ff rf rfault reps tm utc tk lg].
  simpl in *. subst conn.
  destruct fault as [[m|m]|]; simpl; [done|..];
    match goal with
    | |- context [body ?w0] => destruct (body w0) as [[e|a] w2]
    end; simpl; try done; by case_decide.
Qed.

Lemma get_connection_releases_witness :
  let w := Examples.serving Examples.empty_db in
  db_conn (w_db w) = None
  ∧ db_conn (w_db (DatabaseManager.get_connection Examples.manager
                     (execute_insert "2024-01-01T00:00:00" "{}" 0 NaN (Finite 1))
                     w).2) = None.
Proof.
  intros w. assert (db_conn (w_db w) = None) as Hnone by reflexivity.
  split; [exact Hnone|]. by apply get_connection_releases.
Defined.

(** X2.  Callers of [get_connection] see one kind of error: what the engine
    or the body raises comes out as a DatabaseError without details. *)
Theorem get_connection_raises_DatabaseError {A} self (body : M A) (w w' : World) e :
  DatabaseManager.get_connection self body w = (inl e, w') →
  exn_cls e = DatabaseError ∧ exn_details e = [].
Proof.
  unfold_connection.
  destruct w as [[fault c conn] svc mf ff rf rfault reps tm utc tk lg]. simpl.
  destruct fault as [[m|m]|]; simpl;
    try (intros; simplify_eq; done);
    match goal with
    | |- context [body ?w0] => destruct (body w0) as [[e0|a] w2]
    end; simpl; try case_decide; simpl; intros; simplify_eq; done.
Qed.

Lemma get_connection_raises_DatabaseError_witness :
  ∃ e w', DatabaseManager.get_connection Examples.manager
            (raise (mk_error ValueError [Lit "Expecting value"]) : M unit)
            (Examples.serving Examples.empty_db) = (inl e, w')
          ∧ exn_cls e = DatabaseError ∧ exn_details e = [].
Proof.
  destruct (DatabaseManager.get_connection Examples.manager
              (raise (mk_error ValueError [Lit "Expecting value"]) : M unit)
              (Examples.serving Examples.empty_db)) as [[e|a] w'] eqn:Hrun.
  - exists e, w'. split; [reflexivity|].
    exact (get_connection_raises_DatabaseError _ _ _ _ _ Hrun).
  - vm_compute in Hrun. discriminate Hrun.
Defined.

(** X3.  When the body returns, [get_connection] commits: what the body wrote
    on the connection, committed by it or not, is the committed table
    afterwards, and the result of the body is returned. *)
Theorem get_connection_commits {A} self (body : M A) (w w2 : World) a t :
  connects w →
  body (opened self w) = (inr a, w2) →
  db_conn (w_db w2) = Some t →
  (DatabaseManager.get_connection self body w).1 = inr a
  ∧ db_committed (w_db (DatabaseManager.get_connection self body w).2) = t.
Proof.
  intros Hconn Hbody Ht. unfold_connection. unfold opened in Hbody.
  destruct w as [[fault c conn] svc mf ff rf rfault reps tm utc tk lg].
  simpl in *.
  destruct fault as [[m|m]|]; simpl; [by destruct (Hconn m)|..];
    unfold set_log, set_db in *; simpl in *; rewrite Hbody; simpl;
    rewrite Ht; done.
Qed.

Lemma get_connection_commits_witness :
  let w := Examples.serving Examples.empty_db in
  let body := execute_insert "2024-01-01T00:00:00" "{}" 0 (Finite 0) (Finite 1) in
  connects w
  ∧ (DatabaseManager.get_connection Examples.manager body w).1 = inr 1
  ∧ t_rows (db_committed
              (w_db (DatabaseManager.get_connection Examples.manager body w).2))
    = [mkRow 1 "2024-01-01T00:00:00" "{}" 0 (Finite 0) (Finite 1)].
Proof.
  intros w body.
  assert (connects w) as Hconn by (intros m; discriminate).
  split; [exact Hconn|].
  destruct (get_connection_commits Examples.manager body w
              (body (opened Examples.manager w)).2 1
              (mkTable [mkRow 1 "2024-01-01T00:00:00" "{}" 0 (Finite 0) (Finite 1)] 1)
              Hconn eq_refl eq_refl) as [Hres Hdb].
  split; [exact Hres|]. by rewrite Hdb.
Defined.

(** X4.  When the body raises, [get_connection] rolls back: the committed
    table is the one the body left committed, its uncommitted writes are
    gone, and the error is a DatabaseError carrying the message of what
    was raised. *)
Theorem get_connection_rolls_back {A} self (body : M A) (w w2 : World) e :
  connects w →
  body (opened self w) = (inl e, w2) →
  let out := DatabaseManager.get_connection self body w in
  db_committed (w_db out.2) = db_committed (w_db w2)
  ∧ db_conn (w_db out.2) = None
  ∧ ∃ prefix, out.1 = inl (mk_error DatabaseError (Lit prefix :: str_exn e))
      ∧ prefix = if decide (exn_cls e = SqliteError)
                 then "Database operation failed: "
                 else "Unexpected database error: ".
Proof.
  intros Hconn Hbody. unfold_connection. unfold opened in Hbody.
  destruct w as [[fault c conn] svc mf ff rf rfault reps tm utc tk lg].
  simpl in *.
  destruct fault as [[m|m]|]; simpl; [by destruct (Hconn m)|..];
    unfold set_log, set_db in *; simpl in *; rewrite Hbody; simpl;
    case_decide; simpl; eauto.
Qed.

Lemma get_connection_rolls_back_witness :
  let w := Examples.serving Examples.one_row_db in
  let body : M unit :=
    bind (execute_insert "2024-02-01T00:00:00" "{}" 0 (Finite 0) (Finite 1))
      (λ _, raise (mk_error ValueError [Lit "Expecting value"])) in
  connects w
  ∧ db_committed (w_db (DatabaseManager.get_connection Examples.manager body w).2)
    = db_committed Examples.one_row_db.
Proof.
  intros w body.
  assert (connects w) as Hconn by (intros m; discriminate).
  split; [exact Hconn|].
  destruct (get_connection_rolls_back Examples.manager body w
              (body (opened Examples.manager w)).2
              (mk_error ValueError [Lit "Expecting value"])
              Hconn eq_refl) as [Hdb _].
  exact Hdb.
Defined.


(** ** The repository: failures and what they leave behind *)

Section repository_failures.
Context `{Externals}.

Ltac unfold_repository :=
  unfold PredictionRepository.save_prediction,
    PredictionRepository.get_predictions,
    PredictionRepository.get_feature_data,
    PredictionRepository.read_sql_features,
    PredictionRepository.get_prediction_count,
    PredictionRepository.delete_old_predictions,
    DatabaseManager.get_connection, execute_insert, execute_delete, set_conn,
    sqlite_connect, conn_table, conn_commit, conn_rollback, conn_close;
  unfold_monad.

Lemma wrapped_in_DatabaseError {A} (m : M A) (prefix : string) (w w' : World) e :
  try_except m
    (λ e0, log ERROR (Lit prefix :: str_exn e0) ;;
           raise (mk_error DatabaseError (Lit prefix :: str_exn e0))) w
  = (inl e, w') →
  exn_cls e = DatabaseError ∧ ∃ cause, exn_message e = Lit prefix :: cause.
Proof.
  unfold_monad. destruct (m w) as [[e0|a] w0]; simpl; intros; simplify_eq.
  simpl. eauto.
Qed.

(** X5.  Every operation of the repository raises DatabaseError and nothing
    else, with a message that names the operation. *)
Theorem repository_raises_DatabaseError self (w w' : World) e :
  (∀ features p pr l ts,
     PredictionRepository.save_prediction self features p pr l ts w = (inl e, w') →
     exn_cls e = DatabaseError
     ∧ ∃ cause, exn_message e = Lit "Failed to save prediction: " :: cause)
  ∧ (∀ limit offset s t,
       PredictionRepository.get_predictions self limit offset s t w = (inl e, w') →
       exn_cls e = DatabaseError
       ∧ ∃ cause, exn_message e = Lit "Failed to get predictions: " :: cause)
  ∧ (∀ limit,
       PredictionRepository.get_feature_data self limit w = (inl e, w') →
       exn_cls e = DatabaseError
       ∧ ∃ cause, exn_message e = Lit "Failed to get feature data: " :: cause)
  ∧ (PredictionRepository.get_prediction_count self w = (inl e, w') →
     exn_cls e = DatabaseError
     ∧ ∃ cause, exn_message e = Lit "Failed to get prediction count: " :: cause)
  ∧ (∀ cutoff days,
       PredictionRepository.delete_old_predictions cutoff self days w = (inl e, w') →
       exn_cls e = DatabaseError
       ∧ ∃ cause, exn_message e = Lit "Failed to delete old predictions: " :: cause).
Proof.
  split; [|split; [|split; [|split]]].
  - intros features p pr l ts.
    unfold PredictionRepository.save_prediction. unfold bind at 1.
    destruct ts as [t|]; simpl; apply wrapped_in_DatabaseError.
  - intros limit offset s t. apply wrapped_in_DatabaseError.
  - intros limit. apply wrapped_in_DatabaseError.
  - apply wrapped_in_DatabaseError.
  - intros cutoff days. apply wrapped_in_DatabaseError.
Qed.

(** X6.  A call of [save_prediction] that raises has stored nothing: the
    committed table and its key counter are as before. *)
Theorem save_prediction_failure_stores_nothing self features p pr l ts
    (w w' : World) e :
  PredictionRepository.save_prediction self features p pr l ts w = (inl e, w') →
  db_committed (w_db w') = db_committed (w_db w)
  ∧ db_fault (w_db w') = db_fault (w_db w).
Proof.
  destruct w as [[fault c conn] svc mf ff rf rfault reps tm utc tk lg].
  unfold_repository. simpl.
  destruct ts as [t|], fault as [[m|m]|]; simpl;
    repeat (match goal with
            | |- context [if ?b then _ else _] => destruct b eqn:?; simpl
            end);
    intros; simplify_eq; simpl; done.
Qed.

(** X7.  When [save_prediction] returns: exactly when the engine is healthy,
    the label fits 64 bits, neither float is a NaN and the key counter
    has room for one more key. *)
Theorem save_prediction_returns_iff self features p pr l ts (w : World) :
  (∃ id w', PredictionRepository.save_prediction self features p pr l ts w
            = (inr id, w'))
  ↔ db_fault (w_db w) = None
    ∧ int64_min ≤ p ≤ int64_max
    ∧ is_nan pr = false ∧ is_nan l = false
    ∧ Z.max (t_seq (db_committed (w_db w)))
        (max_rowid (t_rows (db_committed (w_db w)))) + 1 ≤ int64_max.
Proof.
  destruct w as [[fault c conn] svc mf ff rf rfault reps tm utc tk lg].
  unfold_repository. simpl.
  split.
  - intros (id & w' & Hrun). revert Hrun.
    destruct ts as [t|], fault as [[m|m]|]; simpl; try discriminate;
      destruct (int64_min <=? p) eqn:H1; simpl; try discriminate;
      destruct (p <=? int64_max) eqn:H2; simpl; try discriminate;
      destruct (is_nan pr) eqn:H3; simpl; try discriminate;
      destruct (is_nan l) eqn:H4; simpl; try discriminate;
      destruct (int64_max <? _) eqn:H5; simpl; try discriminate;
      intros _; repeat split; try done; lia.
  - intros (-> & [H1 H2] & -> & -> & H5).
    apply Z.leb_le in H1, H2. apply Z.ltb_ge in H5.
    destruct ts as [t|]; simpl; rewrite H1, H2; simpl; rewrite H5; simpl;
      by eexists _, _.
Qed.

(** X8.  The reads leave the store as it is, whether they return or raise. *)
Theorem repository_reads_store_unchanged self (w : World) :
  (∀ limit offset s t,
     w_db (PredictionRepository.get_predictions self limit offset s t w).2
     = mkDatabase (db_fault (w_db w)) (db_committed (w_db w))
         (match db_fault (w_db w) with
          | Some (ConnectFails _) => db_conn (w_db w)
          | _ => None
          end))
  ∧ (∀ limit,
       w_db (PredictionRepository.get_feature_data self limit w).2
       = mkDatabase (db_fault (w_db w)) (db_committed (w_db w))
           (match db_fault (w_db w) with
            | Some (ConnectFails _) => db_conn (w_db w)
            | _ => None
            end))
  ∧ w_db (PredictionRepository.get_prediction_count self w).2
    = mkDatabase (db_fault (w_db w)) (db_committed (w_db w))
        (match db_fault (w_db w) with
         | Some (ConnectFails _) => db_conn (w_db w)
         | _ => None
         end).
Proof.
  destruct w as [[fault c conn] svc mf ff rf rfault reps tm utc tk lg].
  repeat split; intros; unfold_repository; simpl;
    destruct fault as [[m|m]|]; simpl; try done.
  - rewrite (for_each_collect _ parse_row) by apply prediction_of_row_pure.
    destruct (collect parse_row _) as [e|ps]; simpl; [|done].
    by case_decide.
  - case_bool_decide; simpl; [done|].
    rewrite (for_each_collect _ parse_features) by apply parse_features_pure.
    destruct (collect parse_features _) as [e|fs]; simpl; [|done].
    by case_decide.
Qed.

End repository_failures.

Lemma repository_raises_DatabaseError_witness :
  let w := Examples.serving Examples.broken_db in
  ∃ e w', @PredictionRepository.get_feature_data Examples.externals
            Examples.repository None w = (inl e, w')
          ∧ exn_cls e = DatabaseError.
Proof.
  intros w.
  destruct (@PredictionRepository.get_feature_data Examples.externals
              Examples.repository None w) as [[e|df] w'] eqn:Hrun.
  - exists e, w'. split; [reflexivity|].
    destruct (@repository_raises_DatabaseError Examples.externals
                Examples.repository w w' e) as (_ & _ & Hfd & _).
    exact (proj1 (Hfd None Hrun)).
  - vm_compute in Hrun. discriminate Hrun.
Defined.

Lemma save_prediction_failure_stores_nothing_witness :
  let w := Examples.serving Examples.one_row_db in
  let out := @PredictionRepository.save_prediction Examples.externals
               Examples.repository ∅ 0 NaN (Finite 1) None w in
  out.1 = inl (mk_error DatabaseError
                 [Lit "Failed to save prediction: ";
                  Lit "Database operation failed: ";
                  Lit "NOT NULL constraint failed"])
  ∧ db_committed (w_db out.2) = db_committed (w_db w).
Proof.
  intros w out. split; [reflexivity|].
  exact (proj1 (@save_prediction_failure_stores_nothing Examples.externals
                  Examples.repository ∅ 0 NaN (Finite 1) None w out.2 _ eq_refl)).
Defined.


(** ** The repository: counting, paging and the feature frame *)

Lemma collect_app {A B} (g : A → exn + B) (xs1 xs2 : list A) ys1 ys2 :
  collect g xs1 = inr ys1 → collect g xs2 = inr ys2 →
  collect g (xs1 ++ xs2) = inr (ys1 ++ ys2).
Proof.
  rewrite !collect_Forall2. apply Forall2_app.
Qed.

Lemma limit_offset_take_drop (limit offset : Z) (rows : list Row) :
  0 ≤ limit →
  limit_offset limit offset rows = take (Z.to_nat limit) (drop (Z.to_nat offset) rows).
Proof.
  intros Hl. unfold limit_offset.
  by rewrite (proj2 (Z.ltb_ge _ _) Hl).
Qed.

Lemma limit_offset_pages (n m k : Z) (rows : list Row) :
  0 ≤ n → 0 ≤ m → 0 ≤ k →
  limit_offset (n + m) k rows
  = limit_offset n k rows ++ limit_offset m (k + n) rows.
Proof.
  intros Hn Hm Hk. rewrite !limit_offset_take_drop by lia.
  rewrite !Z2Nat.inj_add by lia.
  by rewrite <- drop_drop, take_take_drop.
Qed.

Section repository_reads.
Context `{Externals}.

Ltac unfold_repository :=
  unfold PredictionRepository.save_prediction,
    PredictionRepository.get_predictions,
    PredictionRepository.get_feature_data,
    PredictionRepository.read_sql_features,
    PredictionRepository.get_prediction_count,
    PredictionRepository.delete_old_predictions,
    DatabaseManager.get_connection, execute_insert, execute_delete, set_conn,
    sqlite_connect, conn_table, conn_commit, conn_rollback, conn_close;
  unfold_monad.

Lemma get_prediction_count_no_fault self (w : World) :
  db_fault (w_db w) = None →
  (PredictionRepository.get_prediction_count self w).1
  = inr (Z.of_nat (length (t_rows (db_committed (w_db w))))).
Proof.
  intros Hfault.
  destruct w as [[fault c conn] svc mf ff rf rfault reps tm utc tk lg].
  simpl in *. subst fault. by unfold_repository.
Qed.

(** X9.  After a call of [save_prediction] that returns,
    [get_prediction_count] is one more than the number of rows before. *)
Theorem save_prediction_count self features p pr l ts (w w1 : World) id :
  PredictionRepository.save_prediction self features p pr l ts w = (inr id, w1) →
  (PredictionRepository.get_prediction_count self w1).1
  = inr (Z.of_nat (length (t_rows (db_committed (w_db w)))) + 1).
Proof.
  intros Hsave. apply save_prediction_inr in Hsave as (_ & _ & Hdb).
  rewrite get_prediction_count_no_fault by (by rewrite Hdb).
  rewrite Hdb. simpl. rewrite length_app. simpl. f_equal. lia.
Qed.



End repository_reads.

Lemma save_prediction_count_witness :
  let w := Examples.serving Examples.one_row_db in
  let out := @PredictionRepository.save_prediction Examples.externals
               Examples.repository ∅ 1 (Finite 1) (Finite 3) None w in
  out.1 = inr 2
  ∧ (@PredictionRepository.get_prediction_count Examples.repository out.2).1 = inr 2.
Proof.
  intros w out. split; [reflexivity|].
  exact (@save_prediction_count Examples.externals Examples.repository
           ∅ 1 (Finite 1) (Finite 3) None w out.2 2 eq_refl).
Defined.



(** ** Pruning *)

Lemma String_compare_app (d a b : string) :
  String.compare (d +:+ a) (d +:+ b) = String.compare a b.
Proof.
  induction d as [|c d IH]; [done|]. simpl.
  assert (Ascii.compare c c = Eq) as -> by (unfold Ascii.compare; apply N.compare_refl).
  exact IH.
Qed.

(** A timestamp in ISO format is not below a cutoff of its own date in
    the format of SQLite, whatever the times of day: [T] sorts after the
    blank. *)
Lemma iso_not_older_same_date (d t t' : string) (r : Row) :
  row_timestamp r = d +:+ "T" +:+ t' →
  ¬ older_than (Some (d +:+ " " +:+ t)) r.
Proof.
  intros Hts [Hle _]. rewrite Hts in Hle.
  unfold String.le, String.leb in Hle. by rewrite String_compare_app in Hle.
Qed.

Lemma max_rowid_bound (rows : list Row) (r : Row) :
  r ∈ rows → row_id r ≤ max_rowid rows.
Proof.
  induction rows as [|r' rows IH]; intros Hr; [by apply elem_of_nil in Hr|].
  simpl. apply elem_of_cons in Hr as [->|Hr]; [lia|].
  specialize (IH Hr). lia.
Qed.

Section pruning.
Context `{Externals}.

Ltac unfold_repository :=
  unfold PredictionRepository.save_prediction,
    PredictionRepository.delete_old_predictions,
    DatabaseManager.get_connection, execute_insert, execute_delete, set_conn,
    sqlite_connect, conn_table, conn_commit, conn_rollback, conn_close;
  unfold_monad.

Lemma delete_old_predictions_removes_spec datetime_now_minus self days (w : World) :
  db_fault (w_db w) = None →
  let rows := t_rows (db_committed (w_db w)) in
  let cutoff := datetime_now_minus days in
  let out := PredictionRepository.delete_old_predictions datetime_now_minus self days w in
  out.1 = inr (Z.of_nat (length (filter (older_than cutoff) rows)))
  ∧ t_rows (db_committed (w_db out.2)) = filter (λ r, ¬ older_than cutoff r) rows
  ∧ t_seq (db_committed (w_db out.2)) = t_seq (db_committed (w_db w))
  ∧ (cutoff = None → out.1 = inr 0 ∧ t_rows (db_committed (w_db out.2)) = rows).
Proof.
  intros Hfault rows cutoff out. subst out rows cutoff.
  destruct w as [[fault [rows seq] conn] svc mf ff rf rfault reps tm utc tk lg].
  simpl in *. subst fault. unfold_repository. simpl.
  split; [done|]. split; [done|]. split; [done|].
  intros Hnone. rewrite Hnone. split.
  - do 2 f_equal.
    induction rows as [|r rows IH]; [done|].
    by rewrite filter_cons_False by (by intros Hr).
  - induction rows as [|r rows IH]; [done|].
    rewrite filter_cons_True by (by intros Hr). by f_equal.
Qed.


(** X13.  Rows stamped in ISO format on the date of the cutoff survive
    [delete_old_predictions], also those of an earlier time of day than
    the cutoff. *)
Theorem delete_old_predictions_keeps_cutoff_date datetime_now_minus self days
    (w : World) (d t t' : string) (r : Row) :
  db_fault (w_db w) = None →
  datetime_now_minus days = Some (d +:+ " " +:+ t) →
  row_timestamp r = d +:+ "T" +:+ t' →
  r ∈ t_rows (db_committed (w_db w)) →
  r ∈ t_rows (db_committed
                (w_db (PredictionRepository.delete_old_predictions
                         datetime_now_minus self days w).2)).
Proof.
  intros Hfault Hcut Hts Hr.
  destruct (delete_old_predictions_removes_spec datetime_now_minus self days w Hfault)
    as (_ & -> & _).
  apply list_elem_of_filter. split; [|done].
  rewrite Hcut. by apply (iso_not_older_same_date d t t').
Qed.

(** X14.  Keys are not reused after pruning: in a table whose key counter
    covers its rows, a prediction saved after [delete_old_predictions]
    gets a key above every key the table held before. *)
Theorem save_after_delete_fresh_id datetime_now_minus self days
    features p pr l ts (w w2 : World) id :
  max_rowid (t_rows (db_committed (w_db w))) ≤ t_seq (db_committed (w_db w)) →
  let w1 := (PredictionRepository.delete_old_predictions
               datetime_now_minus self days w).2 in
  PredictionRepository.save_prediction self features p pr l ts w1 = (inr id, w2) →
  ∀ r, r ∈ t_rows (db_committed (w_db w)) → row_id r < id.
Proof.
  intros Hwf w1 Hsave r Hr.
  pose proof (save_prediction_inr _ _ _ _ _ _ _ _ _ Hsave) as (Hfault & Hid & _).
  assert (db_fault (w_db w) = None) as Hfault0.
  { revert Hfault. subst w1.
    destruct w as [[fault c conn] svc mf ff rf rfault reps tm utc tk lg].
    unfold_repository. simpl.
    destruct fault as [[m|m]|]; simpl; done. }
  destruct (delete_old_predictions_removes_spec datetime_now_minus self days w Hfault0)
    as (_ & _ & Hseq & _).
  fold w1 in Hseq. rewrite Hseq in Hid.
  pose proof (max_rowid_bound _ _ Hr). lia.
Qed.

End pruning.


Lemma delete_old_predictions_keeps_cutoff_date_witness :
  let r := Examples.row 3 "2024-02-01T00:00:00" "{}" in
  let db := mkDatabase None
              (mkTable [ Examples.row 2 "2024-01-01T00:00:00" "{b: 1.0}"; r ] 3) None in
  let w := Examples.serving db in
  r ∈ t_rows (db_committed
                (w_db (@PredictionRepository.delete_old_predictions
                         (λ _, Some "2024-02-01 12:00:00")
                         Examples.repository 30 w).2)).
Proof.
  intros r db w.
  apply (@delete_old_predictions_keeps_cutoff_date
           (λ _, Some "2024-02-01 12:00:00") Examples.repository 30 w
           "2024-02-01" "12:00:00" "00:00:00" r).
  - reflexivity.
  - reflexivity.
  - reflexivity.
  - right. left.
Defined.

Lemma save_after_delete_fresh_id_witness :
  let db := mkDatabase None
              (mkTable [ Examples.row 1 "2024-03-01T00:00:00" "{a: 1.0}";
                         Examples.row 2 "2024-04-01T00:00:00" "{b: 1.0}" ] 2) None in
  let w := Examples.serving db in
  let w1 := (@PredictionRepository.delete_old_predictions
               (λ _, Some "2024-05-01 00:00:00") Examples.repository 30 w).2 in
  let out := @PredictionRepository.save_prediction Examples.externals
               Examples.repository ∅ 0 (Finite 0) (Finite 1) None w1 in
  t_rows (db_committed (w_db w1)) = []
  ∧ out.1 = inr 3
  ∧ ∀ r, r ∈ t_rows (db_committed (w_db w)) → row_id r < 3.
Proof.
  intros db w w1 out.
  split; [by vm_compute|]. split; [by vm_compute|].
  apply (@save_after_delete_fresh_id Examples.externals
           (λ _, Some "2024-05-01 00:00:00") Examples.repository 30
           ∅ 0 (Finite 0) (Finite 1) None w out.2 3).
  - vm_compute. discriminate.
  - vm_compute. reflexivity.
Defined.

(** ** Loading and reloading the model *)

Ltac unfold_service :=
  unfold ModelService.reload_model, ModelService.load_model,
    ModelService.get_feature_list, ModelService.self,
    ModelService.exists_file, ModelService.read_file, ModelService.set_model,
    ModelService.set_feature_list, ModelService.set_loaded;
  unfold_monad.

Ltac destruct_files mf ff :=
  destruct mf as [|?e|?m], ff as [|?e|[?fl|]]; simpl;
  repeat case_decide; simpl;
  repeat case_bool_decide; simpl.

Lemma load_model_returns_iff_spec (w : World) :
  _loaded (w_service w) = false →
  let out := ModelService.load_model w in
  (out.1 = inr ()
   ↔ ∃ m fl, w_model_file w = Content m
             ∧ w_features_file w = Content (JsonList fl) ∧ fl ≠ [])
  ∧ (∀ m fl, w_model_file w = Content m →
             w_features_file w = Content (JsonList fl) → fl ≠ [] →
             Loaded (w_service out.2) m fl).
Proof.
  intros Hl out. subst out.
  destruct w as [db [mp fp mo flo ld] mf ff rf rfault reps tm utc tk lg].
  simpl in *. subst ld. unfold_service. simpl.
  split; [split|].
  - destruct_files mf ff; intros; simplify_eq.
    eexists _, _. repeat split. intros ->. done.
  - intros (m & fl & -> & -> & Hne). simpl.
    rewrite bool_decide_eq_false_2; [done|].
    intros Hlen. by destruct fl.
  - intros m fl -> -> Hne. simpl.
    rewrite bool_decide_eq_false_2 by (intros Hlen; by destruct fl).
    simpl. by repeat split.
Qed.

(** X15.  On a service that is not loaded, [load_model] returns exactly when
    the model file can be read and the feature file holds a list that is
    not empty; the service then holds that model and that list. *)
Theorem load_model_returns_iff (w : World) :
  _loaded (w_service w) = false →
  let out := ModelService.load_model w in
  (out.1 = inr ()
   ↔ ∃ m fl, w_model_file w = Content m
             ∧ w_features_file w = Content (JsonList fl) ∧ fl ≠ [])
  ∧ (∀ m fl, w_model_file w = Content m →
             w_features_file w = Content (JsonList fl) → fl ≠ [] →
             Loaded (w_service out.2) m fl).
Proof. apply load_model_returns_iff_spec. Qed.

Lemma load_model_returns_iff_witness :
  let w := Examples.fresh Examples.empty_db in
  _loaded (w_service w) = false
  ∧ (ModelService.load_model w).1 = inr ()
  ∧ Loaded (w_service (ModelService.load_model w).2)
      Examples.classifier Examples.schema.
Proof.
  intros w. assert (_loaded (w_service w) = false) as Hl by reflexivity.
  destruct (load_model_returns_iff w Hl) as [Hiff Hloaded].
  split; [exact Hl|]. split.
  - apply Hiff. exists Examples.classifier, Examples.schema.
    repeat split. discriminate.
  - apply Hloaded; [reflexivity | reflexivity | discriminate].
Defined.

(** X16.  A call of [load_model] that raises raises ModelLoadError and leaves
    the service not loaded, so that [predict] keeps failing with
    ModelLoadError; a model file that is not there is reported as
    such, before the feature file is looked at. *)
Theorem load_model_failure (w w' : World) e :
  _loaded (w_service w) = false →
  ModelService.load_model w = (inl e, w') →
  exn_cls e = ModelLoadError
  ∧ ModelService.is_loaded (w_service w') = false
  ∧ (∀ features,
       ModelService.predict features w' = (inl ModelService.not_loaded_error, w'))
  ∧ (w_model_file w = Absent →
     exn_message e = [Lit "Model file not found: "; Lit "Model file not found at ";
                      Lit (model_path (w_service w))]).
Proof.
  intros Hl Hrun.
  assert (exn_cls e = ModelLoadError ∧ _loaded (w_service w') = false
          ∧ (w_model_file w = Absent →
             exn_message e = [Lit "Model file not found: ";
                              Lit "Model file not found at ";
                              Lit (model_path (w_service w))])) as (Hcls & Hl' & Hmsg).
  { revert Hrun.
    destruct w as [db [mp fp mo flo ld] mf ff rf rfault reps tm utc tk lg].
    simpl in *. subst ld. unfold_service. simpl.
    destruct_files mf ff; intros; simplify_eq; simpl; repeat split; done. }
  assert (ModelService.is_loaded (w_service w') = false) as Hno
    by (unfold ModelService.is_loaded; by rewrite Hl').
  repeat split; try done.
  intros features. unfold ModelService.predict, ModelService.self. unfold_monad.
  by rewrite Hno.
Qed.

Lemma load_model_failure_witness :
  let w := set_service (ModelService.init "model.pkl" "feature_list.json")
             (mkWorld Examples.empty_db (ModelService.init "" "")
                Absent (Content (JsonList Examples.schema)) Absent None []
                Examples.clock Examples.calendar 0 []) in
  ∃ e w', ModelService.load_model w = (inl e, w')
    ∧ exn_message e = [Lit "Model file not found: "; Lit "Model file not found at ";
                       Lit "model.pkl"]
    ∧ ModelService.predict ∅ w' = (inl ModelService.not_loaded_error, w').
Proof.
  intros w.
  destruct (ModelService.load_model w) as [[e|u] w'] eqn:Hrun.
  - destruct (load_model_failure w w' e eq_refl Hrun) as (_ & _ & Hpredict & Hmsg).
    exists e, w'. split; [reflexivity|]. split; [by apply Hmsg|]. apply Hpredict.
  - vm_compute in Hrun. discriminate Hrun.
Defined.

(** X17.  [reload_model] takes what is on disk, whatever the service held:
    when it returns, the service holds the model and the list of the
    files; when it raises, it raises ModelLoadError and the service is
    left without a model. *)
Theorem reload_model_outcome (w : World) :
  let out := ModelService.reload_model w in
  (out.1 = inr () →
   ∃ m fl, w_model_file w = Content m
           ∧ w_features_file w = Content (JsonList fl)
           ∧ Loaded (w_service out.2) m fl)
  ∧ (∀ e, out.1 = inl e →
          exn_cls e = ModelLoadError
          ∧ ModelService.is_loaded (w_service out.2) = false).
Proof.
  intros out. subst out.
  destruct w as [db [mp fp mo flo ld] mf ff rf rfault reps tm utc tk lg].
  unfold_service. simpl. unfold ModelService.is_loaded.
  split.
  - destruct_files mf ff; intros; simplify_eq.
    eexists _, _. repeat split. intros ->. done.
  - intros e0. destruct_files mf ff; intros; simplify_eq; done.
Qed.

(** X18.  After [load_model] has returned on a service that was not loaded,
    [get_feature_list] returns the list of the feature file. *)
Theorem get_feature_list_after_load (w w1 : World) :
  _loaded (w_service w) = false →
  ModelService.load_model w = (inr (), w1) →
  ∃ fl, w_features_file w = Content (JsonList fl) ∧ fl ≠ []
        ∧ ModelService.get_feature_list w1 = (inr fl, w1).
Proof.
  intros Hl Hrun.
  destruct (load_model_returns_iff_spec w Hl) as [Hiff Hloaded].
  destruct (proj1 Hiff) as (m & fl & Hm & Hf & Hne); [by rewrite Hrun|].
  specialize (Hloaded m fl Hm Hf Hne). rewrite Hrun in Hloaded. simpl in Hloaded.
  exists fl. repeat split; [done..|].
  unfold ModelService.get_feature_list, ModelService.self. unfold_monad.
  rewrite (Loaded_is_loaded _ _ _ Hloaded).
  destruct Hloaded as (_ & _ & -> & _). done.
Qed.

Lemma get_feature_list_after_load_witness :
  let w := Examples.fresh Examples.empty_db in
  let w1 := Examples.serving Examples.empty_db in
  _loaded (w_service w) = false
  ∧ ModelService.load_model w = (inr (), w1)
  ∧ ModelService.get_feature_list w1 = (inr Examples.schema, w1).
Proof.
  intros w w1. split; [reflexivity|]. split; [reflexivity|].
  destruct (get_feature_list_after_load w w1 eq_refl eq_refl) as (fl & Hf & _ & Hget).
  injection Hf as <-. exact Hget.
Defined.

(** ** Scoring: keys outside the schema *)

Lemma select_columns_agree (fl : list string) (f1 f2 : Features) :
  (∀ k, k ∈ fl → f1 !! k = f2 !! k) →
  select_columns fl f1 = select_columns fl f2.
Proof.
  intros Hagree. unfold select_columns.
  induction fl as [|k fl IH]; [done|]. simpl.
  rewrite (Hagree k) by left. rewrite IH; [done|].
  intros k' Hk'. apply Hagree. by right.
Qed.

Lemma missing_features_agree (fl : list string) (f1 f2 : Features) :
  (∀ k, k ∈ fl → f1 !! k = f2 !! k) →
  (list_to_set fl ∖ dom f1 : gset string) = list_to_set fl ∖ dom f2.
Proof.
  intros Hagree. apply set_eq. intros k.
  rewrite !elem_of_difference, !elem_of_list_to_set, !not_elem_of_dom.
  split; intros [Hk Hnone]; (split; [done|]).
  - by rewrite <- (Hagree k Hk).
  - by rewrite (Hagree k Hk).
Qed.

(** X19.  What [predict] returns or raises depends on the features of the
    schema only: two mappings that agree on every name of the schema
    get the same outcome, whatever other keys they hold. *)
Theorem predict_ignores_other_keys (w : World) m fl (f1 f2 : Features) :
  Loaded (w_service w) m fl →
  (∀ k, k ∈ fl → f1 !! k = f2 !! k) →
  (ModelService.predict f1 w).1 = (ModelService.predict f2 w).1.
Proof.
  intros HL Hagree.
  unfold ModelService.predict, ModelService.self. unfold_monad.
  rewrite (Loaded_is_loaded _ _ _ HL).
  destruct HL as (_ & -> & -> & _). simpl.
  rewrite (missing_features_agree fl f1 f2 Hagree).
  rewrite (select_columns_agree fl f1 f2 Hagree).
  case_bool_decide; simpl; [done|].
  do 2 case_bool_decide; simpl;
    (destruct (select_columns fl f2) as [row|]; simpl;
     [destruct (model_predict m row) as [e1|label]; simpl;
      [|destruct (model_predict_proba m row) as [e2|p]; simpl]|]);
    repeat case_decide; simpl; done.
Qed.

Lemma predict_ignores_other_keys_witness :
  let w := Examples.serving Examples.empty_db in
  let f1 : Features :=
    {[ "Time" := Finite 0; "Amount" := Finite 2500; "V1" := Finite 2 ]} in
  let f2 : Features := <[ "V99" := NaN ]> f1 in
  Loaded (w_service w) Examples.classifier Examples.schema
  ∧ (ModelService.predict f2 w).1 = inr (mkScored 1 (Finite (9 # 10))).
Proof.
  intros w f1 f2.
  assert (Loaded (w_service w) Examples.classifier Examples.schema) as HL
    by (repeat split; done).
  split; [exact HL|].
  rewrite <- (predict_ignores_other_keys w _ _ f1 f2 HL); [by vm_compute|].
  intros k Hk. unfold Examples.schema in Hk.
  repeat (apply elem_of_cons in Hk as [->|Hk]; [reflexivity|]).
  by apply elem_of_nil in Hk.
Defined.

(** X20.  Keys outside the schema are reported: when the features cover the
    schema and hold other keys too, [predict] logs a warning with the
    sorted names of these keys, each of which is a key of the mapping
    that the schema does not have. *)
Theorem predict_warns_about_other_keys (w : World) m fl (features : Features) :
  Loaded (w_service w) m fl →
  (∀ k, k ∈ fl → is_Some (features !! k)) →
  (∃ k, is_Some (features !! k) ∧ k ∉ fl) →
  let extra := sorted (dom features ∖ list_to_set fl) in
  (WARNING, [Lit "Extra features provided (will be ignored): "; FStrs extra])
  ∈ w_log (ModelService.predict features w).2
  ∧ (∀ k, k ∈ extra ↔ is_Some (features !! k) ∧ k ∉ fl)
  ∧ StronglySorted String.le extra.
Proof.
  intros HL Hall (k & Hk & Hnot) extra. subst extra.
  split; [|split].
  - unfold ModelService.predict, ModelService.self. unfold_monad.
    rewrite (Loaded_is_loaded _ _ _ HL).
    destruct HL as (_ & -> & -> & _). simpl.
    rewrite (proj1 (missing_features_empty fl features) Hall).
    rewrite bool_decide_eq_false_2 by (intros Hne; by apply Hne). simpl.
    rewrite bool_decide_eq_true_2.
    2:{ intros Hempty.
        assert (k ∈ (dom features ∖ list_to_set fl : gset string)) as Hin.
        { apply elem_of_difference. split; [by apply elem_of_dom|].
          by rewrite elem_of_list_to_set. }
        rewrite Hempty in Hin. by apply not_elem_of_empty in Hin. }
    simpl.
    destruct (select_columns fl features) as [row|]; simpl;
      [destruct (model_predict m row) as [e1|label]; simpl;
       [|destruct (model_predict_proba m row) as [e2|p]; simpl]|];
      repeat case_decide; simpl;
      rewrite ?elem_of_app, ?list_elem_of_singleton; auto.
  - intros k'. rewrite elem_of_sorted, elem_of_difference, elem_of_dom,
      elem_of_list_to_set. done.
  - apply StronglySorted_sorted.
Qed.

Lemma predict_warns_about_other_keys_witness :
  let w := Examples.serving Examples.empty_db in
  let features : Features :=
    {[ "Time" := Finite 0; "Amount" := Finite 1; "V1" := Finite 2;
       "zeta" := Finite 3; "alpha" := Finite 4 ]} in
  Loaded (w_service w) Examples.classifier Examples.schema
  ∧ (WARNING, [Lit "Extra features provided (will be ignored): ";
               FStrs ["alpha"; "zeta"]])
    ∈ w_log (ModelService.predict features w).2.
Proof.
  intros w features.
  assert (Loaded (w_service w) Examples.classifier Examples.schema) as HL
    by (repeat split; done).
  split; [exact HL|].
  refine (proj1 (predict_warns_about_other_keys w _ _ features HL _ _)).
  - intros k Hk. unfold Examples.schema in Hk.
    repeat (apply elem_of_cons in Hk as [->|Hk]; [by eexists|]).
    by apply elem_of_nil in Hk.
  - exists "zeta". split; [by eexists|]. unfold Examples.schema.
    rewrite !elem_of_cons, elem_of_nil. intros [?|[?|[?|[]]]]; discriminate.
Defined.

(** ** The reference data and the drift run *)

Lemma filter_all {A} (P : A → Prop) `{!∀ x, Decision (P x)} (l : list A) :
  (∀ x, x ∈ l → P x) → filter P l = l.
Proof.
  induction l as [|x l IH]; intros Hall; [done|].
  rewrite filter_cons_True by (apply Hall; left).
  f_equal. apply IH. intros y Hy. apply Hall. by right.
Qed.

Lemma select_features_length limit (t : Table) :
  (length (PredictionRepository.select_features limit t) ≤ length (t_rows t))%nat.
Proof.
  unfold PredictionRepository.select_features.
  rewrite <- (Permutation_length (order_by_timestamp_desc_perm (t_rows t))).
  destruct (truthy_int limit); [|done].
  apply sublist_length, limit_offset_sublist.
Qed.

Section monitoring.
Context `{Externals}.

Ltac unfold_drift :=
  unfold MonitoringService.detect_drift, MonitoringService.load_reference_data,
    MonitoringService.get_live_data_stats,
    MonitoringService.run_and_save_report,
    PredictionRepository.get_feature_data,
    PredictionRepository.get_prediction_count,
    PredictionRepository.read_sql_features, DatabaseManager.get_connection,
    ModelService.exists_file, ModelService.read_file,
    sqlite_connect, conn_table, conn_commit, conn_rollback, conn_close;
  unfold_monad.

(** Case analysis on every test the run makes. *)
Ltac split_tests :=
  simpl;
  repeat (match goal with
          | |- context [for_each _ _ _] =>
              rewrite (for_each_collect _ parse_features)
                by apply parse_features_pure
          | |- context [match collect ?g ?l with _ => _ end] =>
              destruct (collect g l) eqn:?
          | |- context [if decide ?P then _ else _] => destruct (decide P)
          | |- context [if ?b then _ else _] => destruct b eqn:?
          end; simpl).

Local Arguments DataFrame_of_records : simpl never.
Local Arguments df_is_empty : simpl never.
Local Arguments df_len : simpl never.
Local Arguments df_reindex : simpl never.
Local Arguments df_drop : simpl never.
Local Arguments PredictionRepository.select_features : simpl never.
Local Arguments MonitoringService.feature_mismatch_error : simpl never.
Local Arguments MonitoringService.not_enough_data_error : simpl never.
Local Arguments MonitoringService.no_live_data_error : simpl never.

(** X21.  A readable reference file is returned without its [Class] column:
    the other columns keep their order, the rows their number, and no
    record keeps a [Class] cell when the column was there. *)
Theorem load_reference_data_drops_Class self (w : World) raw :
  w_reference_file w = Content raw →
  ∃ df, (MonitoringService.load_reference_data self w).1 = inr df
    ∧ df_columns df = filter (λ c, c ≠ "Class") (df_columns raw)
    ∧ ("Class" ∉ df_columns df)
    ∧ df_len df = df_len raw
    ∧ ("Class" ∈ df_columns raw →
       Forall (λ record, record !! "Class" = None) (df_records df)).
Proof.
  intros Href. exists (reference_of raw).
  assert (df_columns (reference_of raw)
          = filter (λ c, c ≠ "Class") (df_columns raw)) as Hcols.
  { unfold reference_of. case_bool_decide as Hc; simpl; [done|].
    symmetry. apply filter_all. intros c Hin ->. done. }
  split; [|split; [done|split; [|split]]].
  - destruct w as [db svc mf ff rf rfault reps tm utc tk lg].
    simpl in *. subst rf. unfold_drift. simpl. unfold reference_of.
    by case_bool_decide.
  - rewrite Hcols. intros [Hne _]%list_elem_of_filter. done.
  - unfold reference_of, df_len. case_bool_decide; simpl; [|done].
    by rewrite length_fmap.
  - intros Hin. unfold reference_of. rewrite bool_decide_eq_true_2 by done.
    simpl. apply Forall_fmap, Forall_forall. intros record _. simpl.
    apply lookup_delete_eq.
Qed.

(** X22.  [load_reference_data] raises DriftDetectionError only; a file that
    is not there is reported with its path. *)
Theorem load_reference_data_failure self (w w' : World) e :
  MonitoringService.load_reference_data self w = (inl e, w') →
  exn_cls e = DriftDetectionError
  ∧ (w_reference_file w = Absent →
     exn_message e = [Lit "Reference data not found: ";
                      Lit "Reference data not found at ";
                      Lit (ms_reference_data_path self)]).
Proof.
  destruct w as [db svc mf ff rf rfault reps tm utc tk lg].
  unfold_drift. simpl.
  destruct rf as [|e0|raw]; simpl; repeat case_decide; simpl;
    intros; simplify_eq; done.
Qed.

Lemma detect_drift_failure_aux self settings limit report_dir (w w' : World) e :
  MonitoringService.detect_drift self settings limit report_dir w = (inl e, w') →
  exn_cls e = DriftDetectionError ∧ w_reports w' = w_reports w.
Proof.
  destruct w as [[fault c conn] svc mf ff rf rfault reps tm utc tk lg].
  unfold_drift. simpl.
  destruct rf as [|e0|raw], fault as [[m|m]|], rfault as [e2|]; split_tests;
    intros; simplify_eq; split; done.
Qed.


(** X24.  [detect_drift] never writes to the store. *)
Theorem detect_drift_store_unchanged self settings limit report_dir (w : World) :
  db_committed (w_db (MonitoringService.detect_drift self settings limit report_dir w).2)
  = db_committed (w_db w).
Proof.
  destruct w as [[fault c conn] svc mf ff rf rfault reps tm utc tk lg].
  unfold_drift. simpl.
  destruct rf as [|e0|raw], fault as [[m|m]|], rfault as [e2|]; split_tests; done.
Qed.


(** X26.  [get_live_data_stats] never raises: on a healthy store it reports
    the number of rows and whether it reaches [min_records]; when the
    store fails it reports 0 rows, not sufficient, and the error. *)
Theorem get_live_data_stats_reports self (w : World) :
  ∃ stats w', MonitoringService.get_live_data_stats self w = (inr stats, w')
    ∧ min_records_required stats = min_records self
    ∧ (db_fault (w_db w) = None →
       total_predictions stats = Z.of_nat (length (t_rows (db_committed (w_db w))))
       ∧ sufficient_for_drift stats
         = bool_decide (min_records self ≤ total_predictions stats)
       ∧ stats_error stats = None)
    ∧ (db_fault (w_db w) ≠ None →
       total_predictions stats = 0
       ∧ sufficient_for_drift stats = false
       ∧ is_Some (stats_error stats)).
Proof.
  destruct w as [[fault c conn] svc mf ff rf rfault reps tm utc tk lg].
  unfold_drift. simpl.
  destruct fault as [[m|m]|]; simpl; eexists _, _; (split; [reflexivity|]);
    simpl; repeat split; try done; try (by eexists).
  symmetry. destruct (_ <=? _) eqn:Hle.
  - apply bool_decide_eq_true. by apply Z.leb_le.
  - apply bool_decide_eq_false. apply Z.leb_gt in Hle. lia.
Qed.

(** X27.  Statistics that say "not sufficient" are right about the run:
    [detect_drift] then fails, with a DriftDetectionError, for every
    limit. *)
Theorem insufficient_stats_drift_fails self settings limit report_dir
    (w w1 : World) stats :
  MonitoringService.get_live_data_stats self w = (inr stats, w1) →
  sufficient_for_drift stats = false →
  ∃ e, (MonitoringService.detect_drift self settings limit report_dir w).1 = inl e
       ∧ exn_cls e = DriftDetectionError.
Proof.
  intros Hstats Hinsufficient.
  assert (db_fault (w_db w) ≠ None
          ∨ (db_fault (w_db w) = None
             ∧ Z.of_nat (length (t_rows (db_committed (w_db w)))) < min_records self))
    as Hcase.
  { revert Hstats.
    destruct w as [[fault c conn] svc mf ff rf rfault reps tm utc tk lg].
    unfold_drift. simpl.
    destruct fault as [[m|m]|]; simpl; intros; simplify_eq; [by left..|].
    right. split; [done|]. simpl in Hinsufficient.
    by apply Z.leb_gt in Hinsufficient. }
  destruct (MonitoringService.detect_drift self settings limit report_dir w)
    as [[e|r] w'] eqn:Hrun.
  { exists e. split; [done|]. by apply detect_drift_failure_aux in Hrun as [? _]. }
  exfalso. revert Hrun.
  destruct w as [[fault c conn] svc mf ff rf rfault reps tm utc tk lg].
  simpl in Hcase. unfold_drift. simpl.
  destruct rf as [|e0|raw]; simpl; [done | by case_decide |].
  destruct fault as [[m|m]|]; simpl; [done..|].
  destruct Hcase as [Hf|[_ Hlt]]; [done|].
  case_bool_decide; simpl; [done|].
  rewrite (for_each_collect _ parse_features) by apply parse_features_pure.
  destruct (collect parse_features _) as [e1|records] eqn:Hparse; simpl;
    [by case_decide|].
  destruct (df_is_empty _); simpl; [done|].
  assert ((df_len (DataFrame_of_records records) <? min_records self) = true) as ->.
  { apply Z.ltb_lt. unfold df_len. simpl.
    rewrite (collect_length _ _ _ Hparse).
    pose proof (select_features_length limit c). lia. }
  done.
Qed.

End monitoring.

Lemma load_reference_data_drops_Class_witness :
  let w := Examples.serving Examples.empty_db in
  w_reference_file w = Content Examples.reference
  ∧ ∃ df, (MonitoringService.load_reference_data Examples.monitoring w).1 = inr df
          ∧ df_columns df = ["a"].
Proof.
  intros w.
  assert (w_reference_file w = Content Examples.reference) as Href by reflexivity.
  split; [exact Href|].
  destruct (load_reference_data_drops_Class Examples.monitoring w _ Href)
    as (df & Hdf & Hcols & _).
  exists df. split; [exact Hdf|]. by rewrite Hcols.
Defined.

Lemma load_reference_data_failure_witness :
  let w := mkWorld Examples.empty_db (ModelService.init "" "")
             Absent Absent Absent None [] Examples.clock Examples.calendar 0 [] in
  ∃ e w', MonitoringService.load_reference_data Examples.monitoring w = (inl e, w')
    ∧ exn_cls e = DriftDetectionError
    ∧ exn_message e = [Lit "Reference data not found: ";
                       Lit "Reference data not found at ";
                       Lit "data/reference/reference_data.csv"].
Proof.
  intros w.
  destruct (MonitoringService.load_reference_data Examples.monitoring w)
    as [[e|df] w'] eqn:Hrun.
  - destruct (load_reference_data_failure Examples.monitoring w w' e Hrun)
      as [Hcls Hmsg].
    exists e, w'. split; [reflexivity|]. split; [exact Hcls|]. by apply Hmsg.
  - vm_compute in Hrun. discriminate Hrun.
Defined.



Lemma insufficient_stats_drift_fails_witness :
  let w := Examples.serving Examples.one_row_db in
  let stats := mkLiveDataStats 1 500 false None in
  (@MonitoringService.get_live_data_stats Examples.monitoring w).1 = inr stats
  ∧ ∃ e, (@MonitoringService.detect_drift Examples.externals Examples.monitoring
            Examples.settings (Some 10) None w).1 = inl e
         ∧ exn_cls e = DriftDetectionError.
Proof.
  intros w stats. split; [by vm_compute|].
  apply (@insufficient_stats_drift_fails Examples.externals Examples.monitoring
           Examples.settings (Some 10) None w
           (@MonitoringService.get_live_data_stats Examples.monitoring w).2 stats).
  - by vm_compute.
  - reflexivity.
Defined.

(** ** The prediction route: failures and what is stored *)

(** What [predict] raises: the error of the service that is not loaded,
    or a PredictionError. *)
Lemma predict_error_class (features : Features) (w : World) e :
  (ModelService.predict features w).1 = inl e →
  (ModelService.is_loaded (w_service w) = false ∧ e = ModelService.not_loaded_error)
  ∨ (ModelService.is_loaded (w_service w) = true ∧ exn_cls e = PredictionError).
Proof.
  unfold ModelService.predict, ModelService.self. unfold_monad.
  destruct (ModelService.is_loaded (w_service w)); simpl;
    [|intros; simplify_eq; by left].
  intros Hrun. right. split; [done|]. revert Hrun.
  destruct (model (w_service w)) as [m|];
    [destruct (feature_list (w_service w)) as [[fl|]|]|]; simpl;
    try (intros; simplify_eq; done).
  case_bool_decide; simpl; [intros; simplify_eq; done|].
  case_bool_decide; simpl;
    (destruct (select_columns fl features) as [row|]; simpl;
     [destruct (model_predict m row) as [e1|label]; simpl;
      [|destruct (model_predict_proba m row) as [e2|p]; simpl]|]);
    repeat case_decide; simpl; intros; simplify_eq; done.
Qed.

Section route_failures.
Context `{Externals}.

(** X28.  The status of a request that fails: 503 exactly when the model is
    not loaded, and 500 otherwise; the handler never answers 400.  When
    it is the scoring that fails, nothing is saved. *)
Theorem predict_route_failure_status tx repo (w : World) h :
  (Routes.predict tx repo w).1 = inl h →
  ((ModelService.is_loaded (w_service w) = false
    ∧ h = mkHTTPException 503 [Lit "Model not loaded. Please check server logs."])
   ∨ (ModelService.is_loaded (w_service w) = true ∧ status_code h = 500))
  ∧ (∀ e, (ModelService.predict (model_dump tx) w).1 = inl e →
          w_db (Routes.predict tx repo w).2 = w_db w).
Proof.
  destruct (predict_reads_service (model_dump tx) w (set_ticks (S (w_ticks w)) w) eq_refl)
    as [l Hl].
  pose proof (predict_error_class (model_dump tx) w) as Hcls.
  unfold Routes.predict. unfold_monad. rewrite Hl.
  destruct ((ModelService.predict (model_dump tx) w).1) as [e|result] eqn:Hscore.
  - simpl. destruct (Hcls e eq_refl) as [[Hno ->]|[Hyes He]].
    + simpl. intros [= <-]. split; [by left|]. intros _ _. by destruct w.
    + rewrite He. simpl. intros [= <-]. split; [by right|]. intros _ _. by destruct w.
  - simpl.
    assert (ModelService.is_loaded (w_service w) = true) as Hyes.
    { revert Hscore. unfold ModelService.predict, ModelService.self. unfold_monad.
      by destruct (ModelService.is_loaded (w_service w)). }
    match goal with
    | |- context [PredictionRepository.save_prediction ?a ?b ?c ?d ?e ?f ?g] =>
        destruct (PredictionRepository.save_prediction a b c d e f g)
          as [[e0|id] w3]
    end; simpl; unfold PredictionResponse_init;
      destruct (valid_response _); simpl; intros; simplify_eq;
      (split; [by right | intros ? [=]]).
Qed.


Lemma save_prediction_ok self features p pr l ts (w : World) :
  db_fault (w_db w) = None →
  int64_min ≤ p ≤ int64_max →
  is_nan pr = false → is_nan l = false →
  let c := db_committed (w_db w) in
  let id := Z.max (t_seq c) (max_rowid (t_rows c)) + 1 in
  id ≤ int64_max →
  ∃ w', PredictionRepository.save_prediction self features p pr l (Some ts) w
        = (inr id, w')
    ∧ w_db w'
      = mkDatabase None
          (mkTable (t_rows c ++ [mkRow id ts (json_dumps features) p pr l]) id) None.
Proof.
  intros Hfault [H1 H2] H3 H4 c id H5. subst c id.
  destruct w as [[fault c conn] svc mf ff rf rfault reps tm utc tk lg].
  simpl in *. subst fault.
  unfold PredictionRepository.save_prediction, DatabaseManager.get_connection,
    execute_insert, set_conn, sqlite_connect, conn_table, conn_commit,
    conn_rollback, conn_close.
  unfold_monad. simpl.
  apply Z.leb_le in H1, H2. apply Z.ltb_ge in H5.
  rewrite H1, H2, H3, H4. simpl. rewrite H5. simpl. by eexists.
Qed.

Lemma valid_response_storable (r : PredictionResponse) :
  valid_response r = true →
  int64_min ≤ prediction r ≤ int64_max
  ∧ is_nan (probability r) = false ∧ is_nan (latency_ms r) = false.
Proof.
  unfold valid_response. rewrite !andb_true_iff.
  intros ((((H1 & H2) & H3) & _) & H5).
  apply Z.leb_le in H1, H2. unfold int64_min, int64_max.
  split; [lia|]. split.
  - by destruct (probability r).
  - by destruct (latency_ms r).
Qed.

(** X29.  What is answered is what is stored: when the scoring succeeds with
    values the response model accepts, on a healthy store with room for
    one more key, the handler returns the response and the committed
    table has gained one row, with the features of the request and the
    label, the probability, the latency and the timestamp of the
    response. *)
Theorem predict_route_stores_response tx repo (w : World) result :
  (ModelService.predict (model_dump tx) w).1 = inr result →
  let latency := latency_between (w_time w (w_ticks w)) (w_time w (S (w_ticks w))) in
  let stamp := w_utcnow w (S (S (w_ticks w))) in
  let response :=
    mkPredictionResponse (s_prediction result) (s_probability result) latency stamp in
  valid_response response = true →
  db_fault (w_db w) = None →
  let c := db_committed (w_db w) in
  let id := Z.max (t_seq c) (max_rowid (t_rows c)) + 1 in
  id ≤ int64_max →
  let out := Routes.predict tx repo w in
  out.1 = inr response
  ∧ db_committed (w_db out.2)
    = mkTable (t_rows c
               ++ [mkRow id (timestamp response) (json_dumps (model_dump tx))
                     (prediction response) (probability response)
                     (latency_ms response)]) id.
Proof.
  intros Hscore latency stamp response Hvalid Hfault c id Hid out. subst out.
  destruct (predict_reads_service (model_dump tx) w (set_ticks (S (w_ticks w)) w) eq_refl)
    as [l Hl].
  destruct (valid_response_storable _ Hvalid) as (Hp & Hpr & Hlat). simpl in *.
  unfold Routes.predict. unfold_monad. rewrite Hl, Hscore.
  destruct w as [db svc mf ff rf rfault reps tm utc tk lg]. simpl in *.
  unfold set_ticks, set_log. simpl. fold latency. fold stamp.
  match goal with
  | |- context [PredictionRepository.save_prediction ?a ?b ?c ?d ?e (Some ?f) ?g] =>
      destruct (save_prediction_ok a b c d e f g Hfault Hp Hpr Hlat Hid)
        as (w3 & Hsave & Hdb)
  end.
  simpl in Hsave, Hdb. rewrite Hsave. simpl.
  unfold PredictionResponse_init. fold response. rewrite Hvalid. simpl.
  by rewrite Hdb.
Qed.

End route_failures.

Lemma predict_route_failure_status_witness :
  let w := Examples.fresh Examples.empty_db in
  (@Routes.predict Examples.externals Examples.tx Examples.repository w).1
  = inl (mkHTTPException 503 [Lit "Model not loaded. Please check server logs."])
  ∧ w_db (@Routes.predict Examples.externals Examples.tx Examples.repository w).2
    = w_db w.
Proof.
  intros w.
  destruct (@Routes.predict Examples.externals Examples.tx Examples.repository w).1
    as [h|r] eqn:Hrun.
  - destruct (@predict_route_failure_status Examples.externals Examples.tx
                Examples.repository w h Hrun) as [[[_ ->]|[Hl _]] Hdb].
    + split; [reflexivity|]. by apply (Hdb ModelService.not_loaded_error).
    + discriminate Hl.
  - vm_compute in Hrun. discriminate Hrun.
Defined.

Lemma predict_route_stores_response_witness :
  let w := Examples.serving Examples.one_row_db in
  let out := @Routes.predict Examples.externals Examples.tx Examples.repository w in
  db_fault (w_db w) = None
  ∧ out.1 = inr (mkPredictionResponse 0 (Finite (1 # 10))
                   (Examples.millis (Examples.clock 0) (Examples.clock 1))
                   (Examples.calendar 2))
  ∧ row_id <$> t_rows (db_committed (w_db out.2)) = [1; 2].
Proof.
  intros w out.
  assert (db_fault (w_db w) = None) as Hfault by reflexivity.
  split; [exact Hfault|].
  destruct (@predict_route_stores_response Examples.externals Examples.tx
              Examples.repository w (mkScored 0 (Finite (1 # 10))))
    as [Hres Hdb].
  - by vm_compute.
  - by vm_compute.
  - exact Hfault.
  - by vm_compute.
  - split; [exact Hres|]. fold out in Hdb. by rewrite Hdb.
Defined.

(** ** Resolving the model service *)


